(** * deploy_mastodon.py: the release pipeline of the Mastodon artifacts

    A shallow embedding of [src/deploy_mastodon.py].  The script is a sequence
    of calls to external tools (git, maven) and to the file system; its own
    logic is string matching on what the tools print and the order in which
    the calls are made.  The embedding keeps both:

    - strings are [string]s over 8-bit characters (command output is decoded
      as ISO-8859-1 by [run_command], one character per byte);
    - the regular expressions of the script are interpreted by a small
      backtracking matcher for the shapes the script uses;
    - every function that talks to the outside world is a computation
      [M A]: it reads and changes an abstract environment through the
      operations of a [Platform], may raise a Python exception, and records
      the calls it makes as a list of [event]s. *)

From Stdlib Require Import String Ascii List Bool Arith Lia DecimalString.
Import ListNotations.
Open Scope list_scope.
Open Scope string_scope.

(** ** Strings, as Python's [str] methods use them *)

Module Str.

(** The line feed, the only character [.] refuses in a Python regex. *)
Definition newline : ascii := "010"%char.

Definition is_newline (c : ascii) : bool := Ascii.eqb c newline.

Definition nl : string := String newline "".

(** [s[n:]] *)
Fixpoint drop (n : nat) (s : string) : string :=
  match n, s with
  | O, _ => s
  | S n', String _ s' => drop n' s'
  | S _, EmptyString => EmptyString
  end.

(** [s[:n]] *)
Fixpoint take (n : nat) (s : string) : string :=
  match n, s with
  | O, _ => EmptyString
  | S n', String c s' => String c (take n' s')
  | S _, EmptyString => EmptyString
  end.

(** [s.startswith(p)] *)
Definition startswith (s p : string) : bool := prefix p s.

(** [s.endswith(suffix)] *)
Fixpoint endswith (s suffix : string) : bool :=
  (s =? suffix) ||
  match s with
  | EmptyString => false
  | String _ s' => endswith s' suffix
  end.

(** [s[0:-k]]: a negative stop counts from the end and is clipped at 0. *)
Definition slice_to_minus (k : nat) (s : string) : string :=
  take (String.length s - k) s.

(** [c.lower()] for a character of ISO-8859-1: the letters A-Z and the
    accented capitals 0xC0-0xDE, the multiplication sign 0xD7 apart. *)
Definition lower_char (c : ascii) : ascii :=
  let n := nat_of_ascii c in
  if ((65 <=? n)%nat && (n <=? 90)%nat) ||
     ((192 <=? n)%nat && (n <=? 222)%nat && negb (n =? 215)%nat)
  then ascii_of_nat (n + 32)
  else c.

(** [s.lower()] *)
Fixpoint lower (s : string) : string :=
  match s with
  | EmptyString => EmptyString
  | String c s' => String (lower_char c) (lower s')
  end.

(** No line feed in [s]. *)
Fixpoint no_newline (s : string) : bool :=
  match s with
  | EmptyString => true
  | String c s' => negb (is_newline c) && no_newline s'
  end.

(** [' ' * n] *)
Fixpoint spaces (n : nat) : string :=
  match n with
  | O => EmptyString
  | S n' => String " " (spaces n')
  end.

(** ['%30s' % s] for width 30: right-justified, never truncated. *)
Definition rjust (width : nat) (s : string) : string :=
  spaces (width - String.length s) ++ s.

(** ['0' * n] *)
Fixpoint zeros (n : nat) : string :=
  match n with
  | O => EmptyString
  | S n' => String "0" (zeros n')
  end.

(** ['%0wd' % n] for a natural number. *)
Definition zero_padded (width n : nat) : string :=
  let digits := NilZero.string_of_uint (Nat.to_uint n) in
  zeros (width - String.length digits) ++ digits.

(** [s.split(sep)] for a one-character separator. *)
Fixpoint split (sep : ascii) (s : string) : list string :=
  match s with
  | EmptyString => [EmptyString]
  | String c s' =>
      if Ascii.eqb c sep then EmptyString :: split sep s'
      else match split sep s' with
           | [] => [String c EmptyString]
           | w :: ws => String c w :: ws
           end
  end.

End Str.

(** ** Regular expressions

    The script uses two shapes of pattern.  A plain text with no special
    character ([Your branch is up to date with]), which matches where the text
    occurs; and a text, a greedy group [(.+)], and what must follow the group:
    the end of a line ([$] under [re.MULTILINE]) or another text.  The second
    shape may be anchored at the start of a line ([^] under [re.MULTILINE]). *)

Module Re.

Import Str.

(** What follows the group [(.+)]. *)
Inductive tail : Type :=
| EndOfLine            (* [$] with [re.MULTILINE] *)
| Text (t : string).   (* a literal text *)

(** [^? text (.+) tail] *)
Record pattern : Type := Pattern {
  at_line_start : bool;   (* the pattern opens with [^] *)
  opening : string;
  closing : tail
}.

(** [$] under [re.MULTILINE] matches at the end of the text and before every
    line feed; a literal text matches when it stands there. *)
Definition tail_matches (t : tail) (s : string) : bool :=
  match t with
  | EndOfLine =>
      match s with
      | EmptyString => true
      | String c _ => is_newline c
      end
  | Text lit => prefix lit s
  end.

(** [(.+)] then [t], tried at the head of [s]: the group takes one character
    that is no line feed, then as many more as it can, and gives them back one
    by one until [t] matches what is left.  The result is the group. *)
Fixpoint group_then (t : tail) (s : string) : option string :=
  match s with
  | EmptyString => None
  | String c s' =>
      if is_newline c then None
      else match group_then t s' with
           | Some g => Some (String c g)
           | None => if tail_matches t s' then Some (String c EmptyString) else None
           end
  end.

(** The pattern tried at the head of [s]; [bol] says whether that place is the
    start of a line. *)
Definition match_here (p : pattern) (bol : bool) (s : string) : option string :=
  if at_line_start p && negb bol then None
  else if prefix (opening p) s then group_then (closing p) (drop (String.length (opening p)) s)
  else None.

(** The leftmost match from the head of [s] on. *)
Fixpoint search_from (p : pattern) (bol : bool) (s : string) : option string :=
  match match_here p bol s with
  | Some g => Some g
  | None =>
      match s with
      | EmptyString => None
      | String c s' => search_from p (is_newline c) s'
      end
  end.

(** [re.search(p, s, re.MULTILINE)]: [None], or the match's [group(1)]. *)
Definition search (p : pattern) (s : string) : option string :=
  search_from p true s.

(** [re.search(text, s, re.MULTILINE)] for a pattern with no special
    character: is there a match? *)
Fixpoint search_text (text s : string) : bool :=
  prefix text s ||
  match s with
  | EmptyString => false
  | String _ s' => search_text text s'
  end.

(** The characters that stand for themselves in a pattern. *)
Definition literal_char (c : ascii) : bool :=
  negb (existsb (Ascii.eqb c)
          (list_ascii_of_string ".^$*+?{}[]\|()")).

Fixpoint literal (s : string) : bool :=
  match s with
  | EmptyString => true
  | String c s' => literal_char c && literal s'
  end.

End Re.

(** ** Paths ([posixpath]) and dates *)

Module Path.

Import Str.

(** One step of [os.path.join]: an absolute component replaces what came
    before; otherwise it is appended, after a slash unless one is there. *)
Definition join2 (path b : string) : string :=
  if startswith b "/" then b
  else if (path =? "") || endswith path "/" then path ++ b
  else path ++ "/" ++ b.

(** [os.path.join(a, *p)] *)
Definition join (a : string) (p : list string) : string :=
  fold_left join2 p a.

(** The loop of [os.path.normpath] over the components of the path. *)
Definition norm_step (rooted : bool) (new_comps : list string) (comp : string) : list string :=
  if (comp =? "") || (comp =? ".") then new_comps
  else if negb (comp =? "..")
          || (negb rooted && match new_comps with [] => true | _ => false end)
          || (last new_comps "" =? "..")
       then (new_comps ++ [comp])%list
       else removelast new_comps.

(** [os.path.normpath(path)] *)
Definition normpath (path : string) : string :=
  if path =? "" then "."
  else
    let initial_slashes :=
      if startswith path "/"
      then if startswith path "//" && negb (startswith path "///") then 2 else 1
      else 0 in
    let comps := fold_left (norm_step (negb (initial_slashes =? 0)%nat)) (split "/" path) [] in
    let path := take initial_slashes "//" ++ String.concat "/" comps in
    if path =? "" then "." else path.

(** [os.path.basename(p)]: what follows the last slash. *)
Definition basename (p : string) : string :=
  last (split "/" p) "".

End Path.

(** [datetime.date]; [isoformat] is what ['%s' % t] prints. *)
Record date : Type := Date { year : nat; month : nat; day : nat }.

Definition isoformat (t : date) : string :=
  Str.zero_padded 4 (year t) ++ "-" ++ Str.zero_padded 2 (month t) ++ "-" ++ Str.zero_padded 2 (day t).

(** ** The outside world

    What the script asks of the operating system.  [Env] is the state of
    everything outside the script: the repositories, the file system, the
    remote.  [check_output] is [subprocess.check_output(cmd, cwd=..., shell=True,
    stderr=STDOUT)] followed by the decoding of the bytes: [inl out] when the
    command exits with status 0, [inr output] when it raises
    [CalledProcessError] with that output.  The model covers the runs in which
    the shell can be started in the directory and the files can be read and
    written. *)

Record Platform (Env : Type) : Type := {
  check_output : string -> string -> Env -> (string + string) * Env;
  read_file : string -> Env -> string;          (* [open(path, 'r').read()] *)
  getcwd : Env -> string;
  realpath : string -> Env -> string;           (* [os.path.realpath] *)
  path_exists : string -> Env -> bool;          (* [os.path.exists] *)
  mkdir : string -> Env -> Env;                 (* [os.mkdir] *)
  glob : string -> Env -> list string;          (* [glob.glob] *)
  copy : string -> string -> Env -> Env;        (* [shutil.copy] *)
  today : Env -> date                           (* [datetime.date.today()] *)
}.

Arguments check_output {Env}.
Arguments read_file {Env}.
Arguments getcwd {Env}.
Arguments realpath {Env}.
Arguments path_exists {Env}.
Arguments mkdir {Env}.
Arguments glob {Env}.
Arguments copy {Env}.
Arguments today {Env}.

(** What a run does that can be seen from outside, in order. *)
Inductive event : Type :=
| Print (line : string)
| Subprocess (cmd cwd : string)
| Open (path : string)
| Mkdir (path : string)
| Copy (src dst : string).

(** The one exception the script raises by itself: [None.group(1)]. *)
Inductive exn : Type :=
| AttributeError.

Inductive result (A : Type) : Type :=
| Val (a : A)
| Raise (e : exn).

Arguments Val {A}.
Arguments Raise {A}.

(** The outcome of running a computation in an environment. *)
Record outcome (Env A : Type) : Type := Outcome {
  value : result A;
  final : Env;
  events : list event
}.

Arguments Outcome {Env A}.
Arguments value {Env A}.
Arguments final {Env A}.
Arguments events {Env A}.

Definition M (Env A : Type) : Type := Env -> outcome Env A.

Definition ret {Env A} (a : A) : M Env A :=
  fun e => Outcome (Val a) e [].

Definition raise {Env A} (x : exn) : M Env A :=
  fun e => Outcome (Raise x) e [].

Definition bind {Env A B} (m : M Env A) (f : A -> M Env B) : M Env B :=
  fun e =>
    let o := m e in
    match value o with
    | Val a =>
        let o' := f a (final o) in
        Outcome (value o') (final o') (events o ++ events o')%list
    | Raise x => Outcome (Raise x) (final o) (events o)
    end.

Declare Scope monad_scope.
Delimit Scope monad_scope with monad.
Notation "x <- m ;; k" := (bind m (fun x => k))
  (at level 61, m at next level, right associativity) : monad_scope.
Notation "m ;; k" := (bind m (fun _ => k))
  (at level 61, right associativity) : monad_scope.
Open Scope monad_scope.

(** An effect on the environment, recorded as an event. *)
Definition effect {Env} (ev : event) (f : Env -> Env) : M Env unit :=
  fun e => Outcome (Val tt) (f e) [ev].

(** A question to the environment. *)
Definition ask {Env A} (f : Env -> A) : M Env A :=
  fun e => Outcome (Val (f e)) e [].

(** [print(line)] *)
Definition print {Env} (line : string) : M Env unit :=
  effect (Print line) (fun e => e).

(** [for a in l: body(a)] *)
Fixpoint for_each {Env A} (l : list A) (body : A -> M Env unit) : M Env unit :=
  match l with
  | [] => ret tt
  | a :: l' => body a ;; for_each l' body
  end.

(** [for a in l: body(a)] where the body may execute [return]: the body's
    value says whether it did, and so does the loop's. *)
Fixpoint for_each_until {Env A} (l : list A) (body : A -> M Env bool) : M Env bool :=
  match l with
  | [] => ret false
  | a :: l' =>
      returned <- body a ;;
      if returned then ret true else for_each_until l' body
  end.

(** [m.group(1)] on the result of [re.search]. *)
Definition group1 {Env} (m : option string) : M Env string :=
  match m with
  | Some g => ret g
  | None => raise AttributeError
  end.

(** ** The script *)

Definition ROOT_PATH : string := ".".

Definition PATH_TO_POM_FILE : string := Path.join ROOT_PATH ["pom.xml"].

(** The mastodon core artifacts. *)
Definition ARTIFACTS : list string :=
  [ "mastodon-collection";
    "mastodon-graph";
    "mastodon";
    "mastodon-tracking";
    "mastodon-ellipsoid-fitting";
    "mastodon-selection-creator";
    "mastodon-pasteur";
    "mastodon-tomancak";
    "mastodon-app" ].

(** Things needed by Mastodon not currently in Fiji core. *)
Definition EXTRAS : list string :=
  [ "mobie-io";
    "humble-video-all";
    "humble-video-noarch" ].

(** Path to where the repos are cloned. *)
Definition REPO_RELATIVE_PATH : string := "..".

(** The pattern of [get_artifact_version], the artifact's name spliced into
    it as it is.  This reading of the pattern is the script's for a name made
    of characters that stand for themselves ([Re.literal]), as the names of
    [ARTIFACTS] are. *)
Definition version_regex (artifact_name : string) : Re.pattern :=
  Re.Pattern false ("<" ++ artifact_name ++ ".version>")
             (Re.Text ("</" ++ artifact_name ++ ".version>")).

(** [^On branch (.+)$] *)
Definition on_branch_regex : Re.pattern :=
  Re.Pattern true "On branch " Re.EndOfLine.

(** [^HEAD detached at (.+)$] *)
Definition head_detached_regex : Re.pattern :=
  Re.Pattern true "HEAD detached at " Re.EndOfLine.

Section Script.

Context {Env : Type} (os : Platform Env).

Local Abbreviation M := (M Env).

(** [os.path.realpath(path)] *)
Definition os_path_realpath (path : string) : M string :=
  ask (realpath os path).

(** [os.path.abspath(path)] *)
Definition os_path_abspath (path : string) : M string :=
  cwd <- ask (getcwd os) ;;
  ret (Path.normpath (Path.join cwd [path])).

(** [os.path.exists(path)] *)
Definition os_path_exists (path : string) : M bool :=
  ask (path_exists os path).

(** [os.mkdir(path)] *)
Definition os_mkdir (path : string) : M unit :=
  effect (Mkdir path) (mkdir os path).

(** [shutil.copy(src, dst)] *)
Definition shutil_copy (src dst : string) : M unit :=
  effect (Copy src dst) (copy os src dst).

(** [glob.glob(pattern)] *)
Definition glob_glob (pattern : string) : M (list string) :=
  ask (glob os pattern).

(** [with open(path, 'r') as f: f.read()] *)
Definition open_read (path : string) : M string :=
  effect (Open path) (fun e => e) ;;
  ask (read_file os path).

(** [subprocess.check_output(cmd, cwd = where, shell = True, stderr =
    subprocess.STDOUT)], decoded: [inl out], or [inr e.output] for the
    [CalledProcessError] [e]. *)
Definition subprocess_check_output (cmd cwd : string) : M (string + string) :=
  fun e =>
    Outcome (Val (fst (check_output os cmd cwd e)))
            (snd (check_output os cmd cwd e))
            [Subprocess cmd cwd].

Definition run_command (cmd where_ : string) (debug : bool) : M (bool * string) :=
  (if debug then print ("  Running " ++ cmd ++ " on " ++ where_) else ret tt) ;;
  r <- subprocess_check_output cmd where_ ;;
  match r with
  | inl out => ret (true, out)
  | inr output => ret (false, output)
  end.

(** Reads the module version in the pom by looking at the dependencies
    section.  [re.finditer] is lazy and the loop returns at its first element,
    so the leftmost match is the only one computed. *)
Definition get_artifact_version (artifact_name : string) : M string :=
  let regex := version_regex artifact_name in
  text <- open_read PATH_TO_POM_FILE ;;
  match Re.search regex text with
  | Some group => ret group
  | None => ret ""
  end.

Definition check_if_clean (artifact : string) (skip_up_to_date skip_unstaged : bool) : M bool :=
  print ("Checking repo " ++ artifact ++ " ") ;;
  path <- os_path_realpath (Path.join ROOT_PATH [REPO_RELATIVE_PATH; artifact]) ;;
  r <- run_command "git status -uno" path false ;;
  let (ok, out) := r : bool * string in
  if negb ok then
    print ("Could not get git status: " ++ out) ;;
    ret false
  else
    (* Get branch name. *)
    let branch_match := Re.search on_branch_regex out in
    up_to_date <-
      match branch_match with
      | Some branch =>
          print ("  Current branch: " ++ branch) ;;
          (* Check if we are up to date. *)
          ret (Re.search_text "Your branch is up to date with" out)
      | None =>
          let tag_match := Re.search head_detached_regex out in
          tag <- group1 tag_match ;;
          print ("  Current tag: " ++ tag) ;;
          (* Check if we are up to date. *)
          ret (Re.search_text "nothing to commit" out)
      end ;;
    if negb skip_up_to_date && negb up_to_date then
      print "  Repo not up to date with remote. Aborting. " ;;
      ret false
    else
      (* Check if there are unstaged commits. *)
      let unstaged := Re.search_text "Changes not staged for commit:" out in
      if negb skip_unstaged && unstaged then
        print "  There are unstaged changes. Aborting. " ;;
        ret false
      else
        print "  All good." ;;
        ret true.

Definition git_pull (artifact : string) : M (bool * string) :=
  print ("Pulling in repo " ++ artifact) ;;
  path <- os_path_realpath (Path.join ROOT_PATH [REPO_RELATIVE_PATH; artifact]) ;;
  run_command "git pull" path false.

Definition git_checkout_master (artifact : string) : M bool :=
  path <- os_path_realpath (Path.join ROOT_PATH [REPO_RELATIVE_PATH; artifact]) ;;
  r <- run_command "git checkout master" path false ;;
  let (ok, out) := r : bool * string in
  if negb ok then
    print ("  Could not checkout master branch: " ++ out) ;;
    ret false
  else ret true.

Definition git_checkout_version (artifact version : string) (do_install : bool) : M bool :=
  if Str.endswith version "SNAPSHOT" then
    print ("Not checking out SNAPSHOT version " ++ version ++ " of module " ++ artifact) ;;
    ret true (* That's ok. *)
  else
    path <- os_path_realpath (Path.join ROOT_PATH [REPO_RELATIVE_PATH; artifact]) ;;
    (* Git pull tags. *)
    print "Getting tags from remote." ;;
    _ <- run_command "git pull --tags" path false ;;
    (* Now checkout the desired version. *)
    print ("Checking out version " ++ version ++ " of module " ++ artifact) ;;
    r <- run_command ("git -c advice.detachedHead=false checkout " ++ artifact ++ "-" ++ version) path false ;;
    let (ok, out) := r : bool * string in
    if negb ok then
      print ("  Could not checkout specified version: " ++ out) ;;
      ret false
    else if do_install then
      print "  Building artifact." ;;
      r <- run_command "mvn clean install" path false ;;
      let (ok, out) := r : bool * string in
      if negb ok then
        print ("  Could not build artifact: " ++ out) ;;
        ret false
      else ret true
    else ret true.

Definition get_branch_name (artifact : string) : M string :=
  path <- os_path_realpath (Path.join ROOT_PATH [REPO_RELATIVE_PATH; artifact]) ;;
  r <- run_command "git status -uno" path false ;;
  let (ok, out) := r : bool * string in
  let branch_match := Re.search on_branch_regex out in
  match branch_match with
  | Some branch => ret branch
  | None =>
      let tag_match := Re.search head_detached_regex out in
      group1 tag_match
  end.

(** [print('  Copying %s to %s ' % (basename(normpath(file)), copy_dir));
    shutil.copy(file, copy_dir)], the body of both copy loops. *)
Definition copy_jar (copy_dir file : string) : M unit :=
  print ("  Copying " ++ Path.basename (Path.normpath file) ++ " to " ++ copy_dir ++ " ") ;;
  shutil_copy file copy_dir.

Definition subcopy_mastodon_jar (target_dir : string) : M unit :=
  (* Make a separate copy of just the mastodon jar if we have to. *)
  let copy_dir := Str.slice_to_minus 4 target_dir in
  present <- os_path_exists copy_dir ;;
  (if negb present then os_mkdir copy_dir else ret tt) ;;
  let jars_dir := Path.join ROOT_PATH [target_dir; "jars"] in
  print ("Copying mastodon artifacts from " ++ jars_dir ++ " to " ++ target_dir) ;;
  files <- glob_glob (Path.join jars_dir ["mastodon-*.jar"]) ;;
  for_each files (copy_jar copy_dir) ;;
  print ("Copying extra artifacts from " ++ jars_dir ++ " to " ++ target_dir) ;;
  for_each EXTRAS (fun extra =>
    files <- glob_glob (Path.join jars_dir [extra ++ "-*.jar"]) ;;
    for_each files (copy_jar copy_dir)).

(** The block of [install] under [if not default_location]: it makes the
    destination directory and gives it back with the command to run. *)
Definition local_directory : M (string * string) :=
  branch_name <- get_branch_name "mastodon" ;;
  t <- ask (today os) ;;
  let target_dir :=
    if Str.startswith (Str.lower branch_name) "mastodon"
    then "./" ++ branch_name ++ "-" ++ isoformat t ++ "-all"
    else "./Mastodon-" ++ branch_name ++ "-" ++ isoformat t ++ "-all" in
  target_dir <- os_path_realpath target_dir ;;
  present <- os_path_exists target_dir ;;
  (if negb present then os_mkdir target_dir else ret tt) ;;
  print ("Installing to " ++ target_dir) ;;
  absolute <- os_path_abspath target_dir ;;
  ret (target_dir, "mvn clean install -Dscijava.app.directory=" ++ absolute).

(** [install] returns [False] when the build fails and falls off its end
    otherwise: [Some false] and [None].  In default-location mode [target_dir]
    is not bound, and not used. *)
Definition install (default_location : bool) : M (option bool) :=
  target <-
    (if negb default_location then local_directory
     else
       print "Installing to default SciJava location" ;;
       ret ("", "mvn clean install")) ;;
  let (target_dir, cmd) := target : string * string in
  (* We need to build in the mastodon-app repo. *)
  let mastodon_app_path := Path.join REPO_RELATIVE_PATH ["mastodon-app"] in
  r <- run_command cmd mastodon_app_path false ;;
  let (ok, out) := r : bool * string in
  if negb ok then
    print ("Problem during install: " ++ out) ;;
    ret (Some false)
  else if negb default_location then
    subcopy_mastodon_jar target_dir ;;
    ret None
  else ret None.

(** The three loops of [run] over [ARTIFACTS] that come before the install. *)
Definition print_version (artifact : string) : M unit :=
  version <- get_artifact_version artifact ;;
  print (" " ++ Str.rjust 30 artifact ++ " -> " ++ version).

Definition check_or_return (skip_up_to_date skip_unstaged : bool) (artifact : string) : M bool :=
  clean <- check_if_clean artifact skip_up_to_date skip_unstaged ;;
  ret (negb clean).

Definition checkout_or_return (do_install : bool) (artifact : string) : M bool :=
  (* git_pull( artifact ) *)
  version <- get_artifact_version artifact ;;
  done <- git_checkout_version artifact version do_install ;;
  ret (negb done).

Definition back_to_master (artifact : string) : M unit :=
  ok <- git_checkout_master artifact ;;
  if ok then print (" " ++ Str.rjust 30 artifact ++ " -> " ++ "done.") else ret tt.

(** The part of [run] under the first [if not is_preview]; its value says
    whether [run] returned from inside it. *)
Definition prepare (do_install skip_up_to_date skip_unstaged : bool) : M bool :=
  (* Read the desired version. *)
  print (Str.nl ++ "----------------") ;;
  print "Version specified for artifacts:" ;;
  for_each ARTIFACTS print_version ;;
  (* Check each module. *)
  print (Str.nl ++ "----------------") ;;
  print "Checking repos for cleanliness" ;;
  returned <- for_each_until ARTIFACTS (check_or_return skip_up_to_date skip_unstaged) ;;
  if returned then ret true
  else
    (* Pull each module. *)
    print (Str.nl ++ "-------------------") ;;
    print "Checking out the specified versions:" ;;
    returned <- for_each_until ARTIFACTS (checkout_or_return do_install) ;;
    if returned then ret true
    else
      print "Done." ;;
      ret false.

Definition run (install_to_default is_preview do_install skip_up_to_date skip_unstaged : bool) : M unit :=
  returned <- (if negb is_preview
               then prepare do_install skip_up_to_date skip_unstaged
               else ret false) ;;
  if returned then ret tt
  else
    print (Str.nl ++ "----------") ;;
    print "Installing" ;;
    _ <- install install_to_default ;;
    print "Done." ;;
    (if negb is_preview then
       (* Go back to master. *)
       print (Str.nl ++ "----------") ;;
       print "Switching back to master branches" ;;
       for_each ARTIFACTS back_to_master
     else ret tt) ;;
    print "Install finished. ".

End Script.

(** ** A concrete world, to run the script in

    A directory [/work/mastodon-deploy-scripts] beside the repositories, with
    no symbolic link: the environment is the list of the directories made so
    far.  [pom] is the build descriptor, [status] what [git status -uno] prints
    in each repository, and [failing] the commands that exit with an error. *)

Module Testbed.

Definition cwd : string := "/work/mastodon-deploy-scripts".

Definition platform (pom : string) (status : string -> string) (failing : string -> bool)
  : Platform (list string) :=
  {| check_output := fun cmd where_ e =>
       if cmd =? "git status -uno" then (inl (status where_), e)
       else if failing cmd then (inr ("error: " ++ cmd), e)
       else (inl "", e);
     read_file := fun _ _ => pom;
     getcwd := fun _ => cwd;
     realpath := fun path _ => Path.normpath (Path.join cwd [path]);
     path_exists := fun path e => existsb (String.eqb path) e;
     mkdir := fun path e => path :: e;
     glob := fun _ _ => [];
     copy := fun _ _ e => e;
     today := fun _ => Date 2024 1 15 |}.

(** What git prints on a branch in sync with its remote, nothing changed. *)
Definition clean_status (branch : string) : string :=
  "On branch " ++ branch ++ Str.nl ++
  "Your branch is up to date with 'origin/" ++ branch ++ "'." ++ Str.nl ++
  Str.nl ++
  "nothing to commit (use -u to show untracked files)" ++ Str.nl.

(** The same with a modified file. *)
Definition dirty_status (branch : string) : string :=
  "On branch " ++ branch ++ Str.nl ++
  "Your branch is up to date with 'origin/" ++ branch ++ "'." ++ Str.nl ++
  Str.nl ++
  "Changes not staged for commit:" ++ Str.nl ++
  "        modified:   pom.xml" ++ Str.nl ++
  Str.nl ++
  "no changes added to commit (use git add and/or git commit -a)" ++ Str.nl.

(** What git prints once HEAD has moved away from the commit it was detached
    at: neither [On branch] nor [HEAD detached at]. *)
Definition moved_status : string :=
  "HEAD detached from 1a2b3c4" ++ Str.nl ++
  "Changes to be committed:" ++ Str.nl ++
  "        modified:   pom.xml" ++ Str.nl ++
  Str.nl.

Definition pom : string :=
  "<properties>" ++ Str.nl ++
  "  <mastodon.version>1.0.0-beta-30</mastodon.version>" ++ Str.nl ++
  "  <mastodon-app.version>1.0.0-SNAPSHOT</mastodon-app.version>" ++ Str.nl ++
  "</properties>" ++ Str.nl.

Definition never (_ : string) : bool := false.

(** Every repository on the branch [mastodon-dev], clean and in sync. *)
Definition world : Platform (list string) :=
  platform pom (fun _ => clean_status "mastodon-dev") never.

(** Every repository on [master]. *)
Definition on_master : Platform (list string) :=
  platform pom (fun _ => clean_status "master") never.

(** Every repository with a moved detached head. *)
Definition moved : Platform (list string) :=
  platform pom (fun _ => moved_status) never.

(** [mastodon-graph] has a modified file. *)
Definition dirty : Platform (list string) :=
  platform pom
    (fun where_ => if where_ =? "/work/mastodon-graph" then dirty_status "master"
                   else clean_status "master")
    never.



(** The artifact does not compile: the build fails. *)
Definition build_fails : Platform (list string) :=
  platform pom (fun _ => clean_status "master") (fun cmd => cmd =? "mvn clean install").

(** What git prints on a branch that is behind its remote, with a change
    staged. *)
Definition stale_status : string :=
  "On branch master" ++ Str.nl ++
  "Your branch is behind 'origin/master' by 2 commits, and can be fast-forwarded." ++ Str.nl ++
  Str.nl ++
  "Changes to be committed:" ++ Str.nl ++
  "        modified:   pom.xml" ++ Str.nl ++
  Str.nl.

Definition stale : Platform (list string) :=
  platform pom (fun _ => stale_status) never.



(** The tag of the pinned version of [mastodon] does not exist. *)
Definition tag_missing : Platform (list string) :=
  platform pom (fun _ => clean_status "master")
    (fun cmd => cmd =? "git -c advice.detachedHead=false checkout mastodon-1.0.0-beta-30").



(** A descriptor with the version on a line of its own. *)
Definition folded_pom : string :=
  "<foo.version>" ++ Str.nl ++ "1.0" ++ Str.nl ++ "</foo.version>".

(** A descriptor with an empty version, and the version set further down. *)
Definition twice_pom : string :=
  "<foo.version></foo.version>" ++ Str.nl ++ "<foo.version>2.0</foo.version>".

End Testbed.

(** ** Observations on a run, and the words of the specification *)

(** A checkout: of a version's tag, or of the master branch. *)
Definition is_checkout (ev : event) : bool :=
  match ev with
  | Subprocess cmd _ =>
      prefix "git -c advice.detachedHead=false checkout " cmd || (cmd =? "git checkout master")
  | _ => false
  end.

(** A build: [mvn clean install], with or without a destination. *)
Definition is_install (ev : event) : bool :=
  match ev with
  | Subprocess cmd _ => prefix "mvn clean install" cmd
  | _ => false
  end.

Definition is_open (ev : event) : bool :=
  match ev with
  | Open _ => true
  | _ => false
  end.

Definition is_mkdir (ev : event) : bool :=
  match ev with
  | Mkdir _ => true
  | _ => false
  end.

(** [t] stands somewhere in [s]. *)
Definition occurs (t s : string) : Prop :=
  exists before after, s = before ++ t ++ after.

(** Some line of [s] starts with [p]. *)
Definition has_line (p s : string) : bool :=
  existsb (prefix p) (Str.split Str.newline s).

(** Some line of [s] is [p] followed by a name. *)
Definition names_ref (p s : string) : Prop :=
  exists l name, In l (Str.split Str.newline s) /\ l = p ++ name /\ name <> "".

(** The lines a match anchored by [^] may start: all of them when the text
    starts a line, all but the first otherwise. *)
Definition lines_from (bol : bool) (s : string) : list string :=
  if bol then Str.split Str.newline s else tl (Str.split Str.newline s).

(** Every event of the computation [m], in whatever environment it runs,
    satisfies [P]. *)
Definition emits {Env A} (P : event -> Prop) (m : M Env A) : Prop :=
  forall e, Forall P (events (m e)).

(** The events of a cleanliness check or of a question about the branch: a
    [git status] and prints. *)
Definition harmless (ev : event) : Prop :=
  match ev with
  | Print _ => True
  | Subprocess cmd _ => cmd = "git status -uno"
  | _ => False
  end.

(** A [git status]. *)
Definition is_status (ev : event) : bool :=
  match ev with
  | Subprocess cmd _ => cmd =? "git status -uno"
  | _ => false
  end.

(** The events of [install] after it has asked for the branch: prints,
    directories, copies and the build. *)
Definition installing (ev : event) : Prop :=
  match ev with
  | Print _ | Mkdir _ | Copy _ _ => True
  | Subprocess cmd _ => exists rest, cmd = "mvn clean install" ++ rest
  | Open _ => False
  end.

(** Neither a checkout nor a build. *)
Definition quiet (ev : event) : Prop :=
  is_checkout ev = false /\ is_install ev = false.

(** The events of the copy of the jars. *)
Definition copying (ev : event) : Prop :=
  match ev with
  | Print _ | Copy _ _ => True
  | _ => False
  end.


(** The repositories of [l] pass the cleanliness check one after the other,
    taking the environment from [e] to [e']. *)
Inductive checks_pass {Env} (os : Platform Env) (skip_up_to_date skip_unstaged : bool)
  : list string -> Env -> Env -> Prop :=
| pass_none : forall e, checks_pass os skip_up_to_date skip_unstaged [] e e
| pass_next : forall artifact l e e',
    value (check_if_clean os artifact skip_up_to_date skip_unstaged e) = Val true ->
    checks_pass os skip_up_to_date skip_unstaged l
      (final (check_if_clean os artifact skip_up_to_date skip_unstaged e)) e' ->
    checks_pass os skip_up_to_date skip_unstaged (artifact :: l) e e'.

(** A command run through the shell. *)
Definition is_subprocess (ev : event) : bool :=
  match ev with
  | Subprocess _ _ => true
  | _ => false
  end.

(** What [run] may do before it reaches the install: no directory made, no
    file copied, no checkout of master, and the banner of the install not
    printed. *)
Definition before_install (ev : event) : Prop :=
  match ev with
  | Print line => line <> "Installing"
  | Subprocess cmd _ => cmd <> "git checkout master"
  | Open _ => True
  | Mkdir _ | Copy _ _ => False
  end.

(** What [subcopy_mastodon_jar] may do, for the copy directory [dir]: print,
    make [dir], copy into [dir]. *)
Definition writes_into (dir : string) (ev : event) : Prop :=
  match ev with
  | Print _ => True
  | Mkdir path => path = dir
  | Copy _ dst => dst = dir
  | _ => False
  end.

(** The artifacts of [l] are switched to their pinned versions one after the
    other, each with success, taking the environment from [e] to [e']. *)
Inductive switches_pass {Env} (os : Platform Env) (do_install : bool)
  : list string -> Env -> Env -> Prop :=
| switch_none : forall e, switches_pass os do_install [] e e
| switch_next : forall artifact version l e e',
    value (get_artifact_version os artifact e) = Val version ->
    value (git_checkout_version os artifact version do_install e) = Val true ->
    switches_pass os do_install l
      (final (git_checkout_version os artifact version do_install e)) e' ->
    switches_pass os do_install (artifact :: l) e e'.

(** What a run may ask of the outside: the commands the script writes down,
    and the build descriptor as the one file read. *)
Definition known_command (ev : event) : Prop :=
  match ev with
  | Subprocess cmd _ =>
      cmd = "git status -uno" \/ cmd = "git pull --tags" \/ cmd = "git checkout master" \/
      prefix "git -c advice.detachedHead=false checkout " cmd = true \/
      prefix "mvn clean install" cmd = true
  | Open path => path = PATH_TO_POM_FILE
  | Print _ | Mkdir _ | Copy _ _ => True
  end.

(** ** Facts on strings *)

Module StrFacts.

Import Str.

Lemma append_assoc : forall a b c : string, (a ++ b) ++ c = a ++ (b ++ c).
Proof.
  induction a as [|x a IH]; intros b c; simpl; [reflexivity|].
  now rewrite IH.
Qed.

Lemma append_empty_r : forall a : string, a ++ "" = a.
Proof.
  induction a as [|x a IH]; simpl; [reflexivity|now rewrite IH].
Qed.

Lemma length_append : forall a b : string,
  String.length (a ++ b) = String.length a + String.length b.
Proof.
  induction a as [|x a IH]; intros b; simpl; [reflexivity|].
  now rewrite IH.
Qed.

Lemma prefix_append : forall p s : string, prefix p (p ++ s) = true.
Proof.
  induction p as [|x p IH]; intros s; simpl.
  - now destruct s.
  - destruct (ascii_dec x x) as [_|N]; [apply IH|now elim N].
Qed.

Lemma prefix_split : forall p s : string,
  prefix p s = true -> exists r, s = p ++ r.
Proof.
  induction p as [|x p IH]; intros s H.
  - now exists s.
  - destruct s as [|y s]; simpl in H; [discriminate|].
    destruct (ascii_dec x y) as [->|_]; [|discriminate].
    destruct (IH s H) as [r ->]. now exists r.
Qed.

Lemma drop_append : forall p s : string, drop (String.length p) (p ++ s) = s.
Proof.
  induction p as [|x p IH]; intros s; simpl; [reflexivity|apply IH].
Qed.

Lemma take_append : forall p s : string, take (String.length p) (p ++ s) = p.
Proof.
  induction p as [|x p IH]; intros s; simpl; [reflexivity|now rewrite IH].
Qed.

Lemma take_drop : forall n s, take n s ++ drop n s = s.
Proof.
  induction n as [|n IH]; intros s; simpl; [reflexivity|].
  destruct s as [|c s]; simpl; [reflexivity|now rewrite IH].
Qed.

Lemma endswith_append : forall p suffix : string, endswith (p ++ suffix) suffix = true.
Proof.
  induction p as [|x p IH]; intros suffix; simpl.
  - destruct suffix as [|y suffix]; cbn [endswith];
      now rewrite String.eqb_refl.
  - rewrite IH. apply orb_true_r.
Qed.

Lemma endswith_split : forall s suffix : string,
  endswith s suffix = true -> exists p, s = p ++ suffix.
Proof.
  induction s as [|x s IH]; intros suffix H; cbn [endswith] in H.
  - rewrite orb_false_r in H. apply String.eqb_eq in H. subst. now exists "".
  - apply orb_true_iff in H. destruct H as [H|H].
    + apply String.eqb_eq in H. subst. now exists "".
    + destruct (IH _ H) as [p ->]. now exists (String x p).
Qed.

(** [endswith] is Python's: the string is something followed by the suffix. *)
Lemma endswith_false : forall s suffix : string,
  (forall p, s <> p ++ suffix) -> endswith s suffix = false.
Proof.
  intros s suffix H. destruct (endswith s suffix) eqn:E; [|reflexivity].
  destruct (endswith_split _ _ E) as [p ->]. now elim (H p).
Qed.

Lemma no_newline_append : forall a b : string,
  no_newline (a ++ b) = no_newline a && no_newline b.
Proof.
  induction a as [|x a IH]; intros b; simpl; [reflexivity|].
  now rewrite IH, andb_assoc.
Qed.

Lemma endswith_not : forall s suffix : string,
  endswith s suffix = false -> forall p, s <> p ++ suffix.
Proof.
  intros s suffix H p ->. now rewrite endswith_append in H.
Qed.

(** Cutting a suffix off by its length gives what came before it. *)
Lemma slice_to_minus_append : forall p suffix : string,
  slice_to_minus (String.length suffix) (p ++ suffix) = p.
Proof.
  intros p suffix. unfold slice_to_minus.
  rewrite length_append, Nat.add_sub. apply take_append.
Qed.



End StrFacts.

(** ** Facts on the matcher *)

Module ReFacts.

Import Str Re StrFacts.

(** A group that matched is not empty, holds no line feed, and is followed
    by what the pattern asks for. *)
Lemma group_then_sound : forall t s g,
  group_then t s = Some g ->
  exists r, s = g ++ r /\ tail_matches t r = true /\ g <> "" /\ no_newline g = true.
Proof.
  induction s as [|c s IH]; intros g H; simpl in H; [discriminate|].
  destruct (is_newline c) eqn:Ec; [discriminate|].
  destruct (group_then t s) as [g'|] eqn:Eg.
  - injection H as <-. destruct (IH g' eq_refl) as (r & -> & Hr & _ & Hn).
    exists r. simpl. rewrite Ec, Hn. now repeat split.
  - destruct (tail_matches t s) eqn:Et; [|discriminate].
    injection H as <-. exists s. simpl. rewrite Ec. now repeat split.
Qed.

(** The group is greedy: it is [X] when [X] is followed by the tail and no
    longer run of the line is. *)
Lemma group_then_exact : forall t X r,
  X <> "" ->
  no_newline X = true ->
  tail_matches t r = true ->
  (forall j, 0 < j <= String.length r -> no_newline (take j r) = true ->
     tail_matches t (drop j r) = false) ->
  group_then t (X ++ r) = Some X.
Proof.
  intros t X r HX Hn Ht Hlong. induction X as [|c X IH]; [now elim HX|].
  simpl in Hn. apply andb_true_iff in Hn. destruct Hn as [Hc Hn].
  apply negb_true_iff in Hc. simpl. rewrite Hc.
  destruct X as [|d X].
  - simpl. destruct (group_then t r) as [g|] eqn:Eg.
    + destruct (group_then_sound _ _ _ Eg) as (r' & Hr & Ht' & Hg & Hng).
      assert (Hj : 0 < String.length g <= String.length r).
      { rewrite Hr, length_append. destruct g; simpl; [now elim Hg|lia]. }
      specialize (Hlong (String.length g) Hj).
      rewrite Hr, take_append, drop_append in Hlong.
      rewrite (Hlong Hng) in Ht'. discriminate.
    + now rewrite Ht.
  - now rewrite IH.
Qed.

Lemma match_here_sound : forall p b s g,
  match_here p b s = Some g ->
  exists after, s = opening p ++ g ++ after /\ tail_matches (closing p) after = true
                /\ g <> "" /\ no_newline g = true.
Proof.
  unfold match_here. intros p b s g H.
  destruct (at_line_start p && negb b); [discriminate|].
  destruct (prefix (opening p) s) eqn:Ep; [|discriminate].
  destruct (prefix_split _ _ Ep) as [r ->]. rewrite drop_append in H.
  destruct (group_then_sound _ _ _ H) as (after & -> & Ht & Hg & Hn).
  now exists after.
Qed.

(** A match found by [search] stands in the text. *)
Lemma search_from_sound : forall p s b g,
  search_from p b s = Some g ->
  exists before after,
    s = before ++ opening p ++ g ++ after /\ tail_matches (closing p) after = true
    /\ g <> "" /\ no_newline g = true.
Proof.
  induction s as [|c s IH]; intros b g H; simpl in H.
  - destruct (match_here p b "") as [g'|] eqn:Em; [|discriminate].
    injection H as <-. destruct (match_here_sound _ _ _ _ Em) as (after & E & R).
    now exists "", after.
  - destruct (match_here p b (String c s)) as [g'|] eqn:Em.
    + injection H as <-. destruct (match_here_sound _ _ _ _ Em) as (after & E & R).
      now exists "", after.
    + destruct (IH _ _ H) as (before & after & -> & R).
      now exists (String c before), after.
Qed.

(** A pattern with no [^] is tried the same way wherever the line starts. *)
Lemma search_from_unanchored : forall p s b b',
  at_line_start p = false -> search_from p b s = search_from p b' s.
Proof.
  intros p s b b' H. destruct s as [|c s]; simpl; unfold match_here; now rewrite H.
Qed.

(** [search] passes over the places where the opening text does not stand. *)
Lemma search_from_skip : forall p before s b,
  at_line_start p = false ->
  (forall i, i < String.length before -> prefix (opening p) (drop i (before ++ s)) = false) ->
  search_from p b (before ++ s) = search_from p b s.
Proof.
  intros p before s b Hp. revert b.
  induction before as [|c before IH]; intros b H; [reflexivity|].
  cbn [append search_from]. unfold match_here at 1. rewrite Hp. cbn [andb].
  assert (H0 := H 0 ltac:(simpl; lia)). cbn [drop append] in H0. rewrite H0.
  rewrite IH.
  - now apply search_from_unanchored.
  - intros i Hi. apply (H (S i)). simpl. lia.
Qed.

(** The leftmost place where the opening stands, followed by a group [X] that
    is as long as the line allows, is the match. *)
Lemma search_exact : forall p before X after,
  at_line_start p = false ->
  (forall i, i < String.length before ->
     prefix (opening p) (drop i (before ++ opening p ++ X ++ after)) = false) ->
  X <> "" ->
  no_newline X = true ->
  tail_matches (closing p) after = true ->
  (forall j, 0 < j <= String.length after -> no_newline (take j after) = true ->
     tail_matches (closing p) (drop j after) = false) ->
  search p (before ++ opening p ++ X ++ after) = Some X.
Proof.
  intros p before X after Hp Hfirst HX Hn Ht Hlong. unfold search.
  rewrite search_from_skip by assumption.
  destruct (opening p ++ X ++ after) as [|c s] eqn:E; cbn [search_from];
    unfold match_here; rewrite Hp; cbn [andb]; rewrite <- E;
    rewrite prefix_append, drop_append, group_then_exact by assumption; reflexivity.
Qed.

(** [search_text] finds a plain text exactly where it occurs. *)
Lemma search_text_occurs : forall t s, search_text t s = true <-> occurs t s.
Proof.
  intros t s. split.
  - induction s as [|c s IH]; cbn [search_text]; intros H.
    + rewrite orb_false_r in H. destruct (prefix_split _ _ H) as [r ->]. now exists "", r.
    + apply orb_true_iff in H. destruct H as [H|H].
      * destruct (prefix_split _ _ H) as [r ->]. now exists "", r.
      * destruct (IH H) as (a & b & ->). now exists (String c a), b.
  - intros (a & b & ->). induction a as [|c a IH].
    + cbn [append]. destruct (t ++ b) eqn:E; cbn [search_text]; rewrite <- E, prefix_append; reflexivity.
    + cbn [append search_text]. rewrite IH. apply orb_true_r.
Qed.

Lemma search_text_absent : forall t s, ~ occurs t s -> search_text t s = false.
Proof.
  intros t s H. destruct (search_text t s) eqn:E; [|reflexivity].
  now apply search_text_occurs in E.
Qed.

Lemma split_not_nil : forall c s, split c s <> [].
Proof.
  intros c s. destruct s as [|d s]; simpl; [discriminate|].
  destruct (Ascii.eqb d c); [discriminate|]. now destruct (split c s).
Qed.

Lemma prefix_first_line : forall q s,
  no_newline q = true -> prefix q s = true ->
  prefix q (hd "" (split newline s)) = true.
Proof.
  induction q as [|x q IH]; intros s Hq H.
  - now destruct (hd "" (split newline s)).
  - destruct s as [|y s]; simpl in H; [discriminate|].
    destruct (ascii_dec x y) as [<-|_]; [|discriminate].
    simpl in Hq. apply andb_true_iff in Hq. destruct Hq as [Hx Hq].
    apply negb_true_iff in Hx. unfold is_newline in Hx.
    cbn [split]. rewrite Hx.
    specialize (IH s Hq H). pose proof (split_not_nil newline s) as Hne.
    destruct (split newline s) as [|w ws]; [now elim Hne|].
    simpl in *. destruct (ascii_dec x x) as [_|N]; [assumption|now elim N].
Qed.

(** A match of a pattern anchored by [^] starts a line of the text. *)
Lemma search_from_line : forall p s b g,
  at_line_start p = true ->
  no_newline (opening p) = true ->
  search_from p b s = Some g ->
  exists l, In l (lines_from b s) /\ prefix (opening p) l = true.
Proof.
  intros p s b g Hp Hq. revert b g.
  assert (Hhere : forall b s g, match_here p b s = Some g ->
            exists l, In l (lines_from b s) /\ prefix (opening p) l = true).
  { intros b s0 g H. unfold match_here in H. rewrite Hp in H.
    destruct b; cbn in H; [|discriminate].
    destruct (prefix (opening p) s0) eqn:E; [|discriminate].
    exists (hd "" (split newline s0)). split; [|now apply prefix_first_line].
    unfold lines_from. pose proof (split_not_nil newline s0).
    destruct (split newline s0); [contradiction|now left]. }
  induction s as [|c s IH]; intros b g H; cbn [search_from] in H.
  - destruct (match_here p b "") eqn:Em; [|discriminate]. eapply Hhere; eassumption.
  - destruct (match_here p b (String c s)) eqn:Em; [eapply Hhere; eassumption|].
    destruct (IH _ _ H) as (l & Hl & Hpre). exists l. split; [|assumption].
    unfold lines_from in *. cbn [split]. unfold is_newline in Hl.
    pose proof (split_not_nil newline s) as Hne.
    destruct (Ascii.eqb c newline).
    + destruct b; [right|]; assumption.
    + destruct (split newline s) as [|w ws]; [now elim Hne|].
      destruct b; [right|]; assumption.
Qed.

(** With no line starting by the opening text, an anchored pattern finds
    nothing. *)
Lemma search_no_line : forall p s,
  at_line_start p = true ->
  no_newline (opening p) = true ->
  has_line (opening p) s = false ->
  search p s = None.
Proof.
  intros p s Hp Hq H. unfold search. destruct (search_from p true s) as [g|] eqn:E; [|reflexivity].
  destruct (search_from_line _ _ _ _ Hp Hq E) as (l & Hl & Hpre).
  unfold has_line in H. assert (existsb (prefix (opening p)) (split newline s) = true)
    by (apply existsb_exists; now exists l).
  congruence.
Qed.

(** A text is its first line and, when there is more, a line feed and the
    rest. *)
Lemma first_line_split : forall s,
  exists rest,
    s = hd "" (split newline s) ++ rest /\
    no_newline (hd "" (split newline s)) = true /\
    tail_matches EndOfLine rest = true /\
    (forall j, 0 < j <= String.length rest -> no_newline (take j rest) = false).
Proof.
  induction s as [|c s (rest & Hs & Hn & Ht & Hj)].
  - exists "". cbn. repeat split; try reflexivity. intros j Hlen. lia.
  - cbn [split]. destruct (Ascii.eqb c newline) eqn:Ec.
    + exists (String c s). cbn [hd append no_newline tail_matches].
      unfold is_newline. rewrite Ec. repeat split; try reflexivity.
      intros [|j] Hlen; [lia|]. cbn [take no_newline]. unfold is_newline. now rewrite Ec.
    + pose proof (split_not_nil newline s) as Hne.
      destruct (split newline s) as [|w ws]; [now elim Hne|].
      exists rest. cbn [hd append no_newline] in *. unfold is_newline. rewrite Ec.
      repeat split; try assumption. now rewrite <- Hs.
Qed.

(** A first line made of the opening text and a name is a match. *)
Lemma match_first_line : forall p s name,
  closing p = EndOfLine ->
  hd "" (split newline s) = opening p ++ name ->
  name <> "" ->
  match_here p true s = Some name.
Proof.
  intros p s name Hc Hl Hname.
  destruct (first_line_split s) as (rest & Hs & Hn & Ht & Hj).
  rewrite Hl in Hs, Hn. rewrite no_newline_append in Hn.
  apply andb_true_iff in Hn. destruct Hn as [_ Hn].
  unfold match_here. rewrite andb_false_r. rewrite Hs, append_assoc.
  rewrite prefix_append, drop_append, Hc.
  apply group_then_exact; try assumption.
  intros j Hlen Hnone. rewrite (Hj j Hlen) in Hnone. discriminate.
Qed.

(** An anchored pattern that ends with [$] finds a match whenever a line is
    its opening text and a name. *)
Lemma search_from_complete : forall p s b l name,
  closing p = EndOfLine ->
  In l (lines_from b s) ->
  l = opening p ++ name ->
  name <> "" ->
  exists g, search_from p b s = Some g.
Proof.
  intros p s b l name Hc Hin Hl Hname. revert b Hin.
  induction s as [|c s IH]; intros b Hin; cbn [search_from].
  - destruct (match_here p b "") as [g|] eqn:Em; [now exists g|].
    destruct b; cbn in Hin; [|contradiction].
    destruct Hin as [<-|[]]. destruct (opening p); [|discriminate].
    cbn in Hl. now elim Hname.
  - destruct (match_here p b (String c s)) as [g|] eqn:Em; [now exists g|].
    apply IH. unfold lines_from in *. cbn [split] in Hin. unfold is_newline.
    pose proof (split_not_nil newline s) as Hne.
    assert (Hhead : b = true -> hd "" (split newline (String c s)) <> l).
    { intros -> E. subst l. rewrite (match_first_line _ _ _ Hc E Hname) in Em. discriminate. }
    cbn [split] in Hhead.
    destruct (Ascii.eqb c newline).
    + destruct b; [|exact Hin]. destruct Hin as [E|Hin]; [|exact Hin].
      now elim (Hhead eq_refl).
    + destruct (split newline s) as [|w ws]; [now elim Hne|].
      destruct b; [|exact Hin]. destruct Hin as [E|Hin]; [|exact Hin].
      now elim (Hhead eq_refl).
Qed.

Lemma search_names_ref : forall p s,
  closing p = EndOfLine ->
  names_ref (opening p) s ->
  exists g, search p s = Some g.
Proof.
  intros p s Hc (l & name & Hin & Hl & Hname).
  now apply (search_from_complete p s true l name).
Qed.





End ReFacts.

(** ** Facts on computations *)

Section MonadFacts.

Context {Env : Type}.

Lemma outcome_eta : forall A (o : outcome Env A),
  Outcome (value o) (final o) (events o) = o.
Proof. now destruct o. Qed.

Lemma bind_ret_l : forall A B (a : A) (f : A -> M Env B) e,
  bind (ret a) f e = f a e.
Proof. intros. unfold bind, ret. cbn. apply outcome_eta. Qed.

Lemma bind_ext : forall A B (m : M Env A) (f g : A -> M Env B) e,
  (forall a e', f a e' = g a e') -> bind m f e = bind m g e.
Proof.
  intros A B m f g e H. unfold bind. destruct (value (m e)); [|reflexivity].
  now rewrite H.
Qed.

(** When the first computation returns, the second one runs after it. *)
Lemma bind_val : forall A B (m : M Env A) (f : A -> M Env B) e a,
  value (m e) = Val a ->
  bind m f e = Outcome (value (f a (final (m e)))) (final (f a (final (m e))))
                       (events (m e) ++ events (f a (final (m e))))%list.
Proof. intros A B m f e a H. unfold bind. now rewrite H. Qed.

(** A sequence whose two parts are known. *)
Lemma bind_outcome : forall A B (m : M Env A) (f : A -> M Env B) e a e' t v e'' t',
  m e = Outcome (Val a) e' t ->
  f a e' = Outcome v e'' t' ->
  bind m f e = Outcome v e'' (t ++ t')%list.
Proof.
  intros A B m f e a e' t v e'' t' Hm Hf. unfold bind. rewrite Hm. cbn [value final events].
  now rewrite Hf.
Qed.

(** A sequence whose first part raises. *)
Lemma bind_raise : forall A B (m : M Env A) (f : A -> M Env B) e x e' t,
  m e = Outcome (Raise x) e' t ->
  bind m f e = Outcome (Raise x) e' t.
Proof. intros A B m f e x e' t Hm. unfold bind. now rewrite Hm. Qed.

Lemma emits_ret : forall P A (a : A), emits P (ret a : M Env A).
Proof. intros P A a e. constructor. Qed.

Lemma emits_raise : forall P A x, emits P (raise x : M Env A).
Proof. intros P A x e. constructor. Qed.

Lemma emits_ask : forall P A (f : Env -> A), emits P (ask f).
Proof. intros P A f e. constructor. Qed.

Lemma emits_effect : forall (P : event -> Prop) ev (f : Env -> Env),
  P ev -> emits P (effect ev f).
Proof. intros P ev f H e. now repeat constructor. Qed.

Lemma emits_print : forall (P : event -> Prop) line,
  P (Print line) -> emits P (print line : M Env unit).
Proof. intros. now apply emits_effect. Qed.

Lemma emits_bind : forall P A B (m : M Env A) (f : A -> M Env B),
  emits P m -> (forall a, emits P (f a)) -> emits P (bind m f).
Proof.
  intros P A B m f Hm Hf e. unfold bind.
  destruct (value (m e)); cbn [events]; [|apply Hm].
  apply Forall_app. split; [apply Hm|apply Hf].
Qed.

Lemma emits_group1 : forall P m, emits P (group1 m : M Env string).
Proof. intros P [g|]; [apply emits_ret|apply emits_raise]. Qed.

Lemma emits_for_each : forall P A (l : list A) (body : A -> M Env unit),
  (forall a, emits P (body a)) -> emits P (for_each l body).
Proof.
  intros P A l body H. induction l as [|a l IH]; cbn [for_each].
  - apply emits_ret.
  - apply emits_bind; [apply H|intros _; apply IH].
Qed.

Lemma emits_for_each_until : forall P A (l : list A) (body : A -> M Env bool),
  (forall a, emits P (body a)) -> emits P (for_each_until l body).
Proof.
  intros P A l body H. induction l as [|a l IH]; cbn [for_each_until].
  - apply emits_ret.
  - apply emits_bind; [apply H|intros [|]; [apply emits_ret|apply IH]].
Qed.

(** A loop that meets a [return] stops there: the events are those of the
    iterations up to it. *)
Lemma for_each_until_stops : forall A (body : A -> M Env bool) l1 a l2 e e1 t1,
  for_each_until l1 body e = Outcome (Val false) e1 t1 ->
  value (body a e1) = Val true ->
  for_each_until (l1 ++ a :: l2)%list body e =
    Outcome (Val true) (final (body a e1)) (t1 ++ events (body a e1))%list.
Proof.
  intros A body l1 a l2. induction l1 as [|b l1 IH]; intros e e1 t1 H Ha.
  - cbn in H. injection H as <- <-. cbn [app for_each_until].
    rewrite (bind_val _ _ _ _ _ _ Ha). cbn. now rewrite app_nil_r.
  - cbn [app for_each_until] in *. unfold bind in H |- *.
    destruct (value (body b e)) as [[|]|x] eqn:Eb; cbn in H; try discriminate.
    specialize (IH (final (body b e))).
    destruct (for_each_until l1 body (final (body b e))) as [v f t] eqn:El.
    cbn in H. injection H as -> -> <-.
    rewrite (IH _ _ eq_refl Ha). cbn. now rewrite app_assoc.
Qed.

Lemma events_bind : forall A B (m : M Env A) (f : A -> M Env B) e,
  events (bind m f e) =
    (events (m e) ++ match value (m e) with
                     | Val a => events (f a (final (m e)))
                     | Raise _ => []
                     end)%list.
Proof.
  intros. unfold bind. destruct (value (m e)); cbn [events]; [reflexivity|].
  now rewrite app_nil_r.
Qed.

(** The events of a sequence: those of its head, then events of the kind
    its tail emits. *)
Lemma events_bind_emits : forall P A B (m : M Env A) (f : A -> M Env B) e,
  (forall a, emits P (f a)) ->
  exists rest, events (bind m f e) = (events (m e) ++ rest)%list /\ Forall P rest.
Proof.
  intros P A B m f e H. rewrite events_bind. eexists. split; [reflexivity|].
  destruct (value (m e)); [apply H|constructor].
Qed.

Lemma filter_nothing : forall (p : event -> bool) (t : list event),
  Forall (fun ev => p ev = false) t -> filter p t = [].
Proof.
  intros p t H. induction H as [|ev t Hev _ IH]; cbn [filter]; [reflexivity|].
  now rewrite Hev.
Qed.

End MonadFacts.

(** One step in the proof that a computation emits only events of a kind. *)
Ltac emits_step :=
  match goal with
  | |- emits _ (bind _ _) => apply emits_bind; [|intros ?]
  | |- emits _ (ret _) => apply emits_ret
  | |- emits _ (raise _) => apply emits_raise
  | |- emits _ (ask _) => apply emits_ask
  | |- emits _ (print _) => apply emits_print
  | |- emits _ (effect _ _) => apply emits_effect
  | |- emits _ (group1 _) => apply emits_group1
  | |- emits _ (for_each _ _) => apply emits_for_each; intros ?
  | |- emits _ (for_each_until _ _) => apply emits_for_each_until; intros ?
  | |- emits _ (if ?b then _ else _) => destruct b
  | |- emits _ (match ?x with _ => _ end) => destruct x
  end.

Ltac emits_all := repeat emits_step.

(** ** The script's functions *)

Section ScriptFacts.

Context {Env : Type} (os : Platform Env).

(** Where [run_command] leaves the environment, what it returns and what it
    records. *)
Lemma run_command_run : forall cmd where_ e,
  run_command os cmd where_ false e =
    Outcome (Val (match fst (check_output os cmd where_ e) with
                  | inl out => (true, out)
                  | inr output => (false, output)
                  end))
            (snd (check_output os cmd where_ e))
            [Subprocess cmd where_].
Proof.
  intros. unfold run_command, subprocess_check_output, bind, ret. cbn.
  now destruct (fst (check_output os cmd where_ e)).
Qed.

Lemma get_artifact_version_run : forall artifact_name e,
  get_artifact_version os artifact_name e =
    Outcome (Val (match Re.search (version_regex artifact_name) (read_file os PATH_TO_POM_FILE e) with
                  | Some group => group
                  | None => ""
                  end))
            e [Open PATH_TO_POM_FILE].
Proof.
  intros. unfold get_artifact_version, open_read, effect, ask, bind, ret. cbn.
  now destruct (Re.search _ _).
Qed.

(** C1, amended: for an artifact name made of characters that stand for
    themselves in a pattern, when the descriptor holds the element
    [<A.version>X</A.version>] with [X] not empty and on one line, the opening
    tag standing nowhere before it and no further closing tag following [X] on
    its line, [get_artifact_version] returns [X]; and when the descriptor
    holds no such element whatever [X], it returns the empty string. *)
Theorem version_is_read : forall artifact_name e,
  Re.literal artifact_name = true ->
  let pom := read_file os PATH_TO_POM_FILE e in
  let opening := "<" ++ artifact_name ++ ".version>" in
  let closing := "</" ++ artifact_name ++ ".version>" in
  (forall before X after,
     pom = before ++ opening ++ X ++ closing ++ after ->
     (forall i, i < String.length before -> prefix opening (Str.drop i pom) = false) ->
     X <> "" ->
     Str.no_newline X = true ->
     (forall j, 0 < j -> Str.no_newline (Str.take j (closing ++ after)) = true ->
        prefix closing (Str.drop j (closing ++ after)) = false) ->
     value (get_artifact_version os artifact_name e) = Val X) /\
  ((forall X, ~ occurs (opening ++ X ++ closing) pom) ->
     value (get_artifact_version os artifact_name e) = Val "").
Proof.
  intros artifact_name e _ pom opening closing. split.
  - intros before X after Hpom Hfirst HX Hline Hlast.
    rewrite get_artifact_version_run. cbn [value]. fold pom. rewrite Hpom in Hfirst |- *.
    change opening with (Re.opening (version_regex artifact_name)) in Hfirst |- *.
    rewrite ReFacts.search_exact; try assumption; try reflexivity.
    + cbn [version_regex Re.closing Re.tail_matches]. apply StrFacts.prefix_append.
    + intros j [Hj _]. now apply Hlast.
  - intros Habsent. rewrite get_artifact_version_run. cbn [value]. fold pom.
    destruct (Re.search (version_regex artifact_name) pom) as [g|] eqn:E; [|reflexivity].
    destruct (ReFacts.search_from_sound _ _ _ _ E) as (before & after & Hpom & Ht & _).
    cbn [version_regex Re.closing Re.opening Re.tail_matches] in Hpom, Ht.
    destruct (StrFacts.prefix_split _ _ Ht) as [r ->].
    elim (Habsent g). exists before, r.
    rewrite Hpom. fold opening closing. now rewrite !StrFacts.append_assoc.
Qed.

(** C4: for every artifact and every version that ends with the snapshot
    marker [SNAPSHOT], [git_checkout_version] runs no command at all: it
    prints one line, leaves the environment as it was and returns [True]. *)
Theorem snapshot_is_not_checked_out : forall artifact release do_install e,
  git_checkout_version os artifact (release ++ "SNAPSHOT") do_install e =
    Outcome (Val true) e
      [Print ("Not checking out SNAPSHOT version " ++ (release ++ "SNAPSHOT")
              ++ " of module " ++ artifact)].
Proof.
  intros. unfold git_checkout_version.
  now rewrite StrFacts.endswith_append.
Qed.

(** What [git_checkout_version] does for a version that is no snapshot, by
    the exit status of the checkout and of the build. *)
Lemma git_checkout_version_run : forall artifact version do_install e,
  Str.endswith version "SNAPSHOT" = false ->
  let path := realpath os (Path.join ROOT_PATH [REPO_RELATIVE_PATH; artifact]) e in
  let tag := artifact ++ "-" ++ version in
  let pull := check_output os "git pull --tags" path e in
  let checkout :=
    check_output os ("git -c advice.detachedHead=false checkout " ++ tag) path (snd pull) in
  let build := check_output os "mvn clean install" path (snd checkout) in
  let start :=
    [ Print "Getting tags from remote.";
      Subprocess "git pull --tags" path;
      Print ("Checking out version " ++ version ++ " of module " ++ artifact);
      Subprocess ("git -c advice.detachedHead=false checkout " ++ tag) path ] in
  git_checkout_version os artifact version do_install e =
    match fst checkout with
    | inr out =>
        Outcome (Val false) (snd checkout)
          (start ++ [Print ("  Could not checkout specified version: " ++ out)])
    | inl _ =>
        if do_install then
          match fst build with
          | inr out =>
              Outcome (Val false) (snd build)
                (start ++ [ Print "  Building artifact.";
                            Subprocess "mvn clean install" path;
                            Print ("  Could not build artifact: " ++ out) ])
          | inl _ =>
              Outcome (Val true) (snd build)
                (start ++ [ Print "  Building artifact.";
                            Subprocess "mvn clean install" path ])
          end
        else Outcome (Val true) (snd checkout) start
    end.
Proof.
  intros artifact version do_install e H. cbv zeta.
  unfold git_checkout_version. rewrite H.
  unfold bind, os_path_realpath, ask, print, effect, ret.
  cbn [value final events]. rewrite !run_command_run. cbn [value final events].
  destruct (fst (check_output os _ _ (snd _))) as [out|out] eqn:Ec;
    cbn [negb value final events app]; [|reflexivity].
  destruct do_install; [|reflexivity].
  rewrite !run_command_run. cbn [value final events].
  destruct (fst (check_output os "mvn clean install" _ _)); reflexivity.
Qed.

(** C5: for every artifact and every version that does not end with
    [SNAPSHOT], [git_checkout_version] fetches the tags and then runs, in the
    artifact's repository, the checkout of the ref [artifact-version] with the
    advice on detached heads switched off. *)
Theorem tag_is_checked_out : forall artifact version do_install e,
  (forall release, version <> release ++ "SNAPSHOT") ->
  let path := realpath os (Path.join ROOT_PATH [REPO_RELATIVE_PATH; artifact]) e in
  exists rest,
    events (git_checkout_version os artifact version do_install e) =
      ([ Print "Getting tags from remote.";
         Subprocess "git pull --tags" path;
         Print ("Checking out version " ++ version ++ " of module " ++ artifact);
         Subprocess ("git -c advice.detachedHead=false checkout " ++ artifact ++ "-" ++ version)
                    path ] ++ rest)%list.
Proof.
  intros artifact version do_install e H path.
  rewrite git_checkout_version_run by now apply StrFacts.endswith_false.
  fold path.
  destruct (fst (check_output os _ _ (snd _))); [destruct do_install|];
    [destruct (fst (check_output os "mvn clean install" _ _))| |];
    cbn [events]; eexists; reflexivity.
Qed.


(** C3: when the output of [git status] has no line that starts with
    [On branch ] and none that starts with [HEAD detached at ],
    [check_if_clean] raises [AttributeError] (it asks the failed match for its
    group) where it should return, and so does [get_branch_name]. *)
Theorem unrecognised_status_crashes : forall artifact skip_up_to_date skip_unstaged e out,
  has_line "On branch " out = false ->
  has_line "HEAD detached at " out = false ->
  let path := realpath os (Path.join ROOT_PATH [REPO_RELATIVE_PATH; artifact]) e in
  (fst (check_output os "git status -uno" path e) = inl out ->
     value (check_if_clean os artifact skip_up_to_date skip_unstaged e) = Raise AttributeError) /\
  (fst (check_output os "git status -uno" path e) = inl out \/
   fst (check_output os "git status -uno" path e) = inr out ->
     value (get_branch_name os artifact e) = Raise AttributeError).
Proof.
  intros artifact su sus e out Hb Ht path.
  assert (Eb : Re.search on_branch_regex out = None)
    by (now apply ReFacts.search_no_line).
  assert (Et : Re.search head_detached_regex out = None)
    by (now apply ReFacts.search_no_line).
  split.
  - intros Hout. unfold check_if_clean, bind, os_path_realpath, ask, print, effect.
    cbn [value final events]. rewrite run_command_run. cbn [value final events].
    fold path. rewrite Hout. cbn [negb]. rewrite Eb, Et. reflexivity.
  - intros Hout. unfold get_branch_name, bind, os_path_realpath, ask.
    cbn [value final events]. rewrite run_command_run. cbn [value final events].
    fold path. destruct Hout as [-> | ->]; rewrite Eb, Et; reflexivity.
Qed.

(** X1: with no override of the sync check, [check_if_clean] returns [False]
    when git fails, and when the status names a branch or a tag and has
    neither [Your branch is up to date with] nor [nothing to commit]. *)
Theorem stale_repository_fails_the_check : forall artifact skip_unstaged e out,
  let path := realpath os (Path.join ROOT_PATH [REPO_RELATIVE_PATH; artifact]) e in
  (fst (check_output os "git status -uno" path e) = inr out ->
     value (check_if_clean os artifact false skip_unstaged e) = Val false) /\
  (fst (check_output os "git status -uno" path e) = inl out ->
     names_ref "On branch " out \/ names_ref "HEAD detached at " out ->
     ~ occurs "Your branch is up to date with" out ->
     ~ occurs "nothing to commit" out ->
     value (check_if_clean os artifact false skip_unstaged e) = Val false).
Proof.
  intros artifact sus e out path. split.
  - intros Hout. unfold check_if_clean, bind, os_path_realpath, ask, print, effect.
    cbn [value final events]. rewrite run_command_run. cbn [value final events].
    fold path. rewrite Hout. reflexivity.
  - intros Hout Href Hsync Hnothing.
    apply ReFacts.search_text_absent in Hsync, Hnothing.
    unfold check_if_clean, bind, os_path_realpath, ask, print, effect.
    cbn [value final events]. rewrite run_command_run. cbn [value final events].
    fold path. rewrite Hout. cbn [negb].
    destruct (Re.search on_branch_regex out) as [branch|] eqn:Eb.
    + cbn [ret value final events]. rewrite Hsync. reflexivity.
    + destruct Href as [Href|Href].
      * destruct (ReFacts.search_names_ref on_branch_regex out eq_refl Href) as [g Hg].
        congruence.
      * destruct (ReFacts.search_names_ref head_detached_regex out eq_refl Href) as [g ->].
        cbn [group1 ret value final events]. rewrite Hnothing. reflexivity.
Qed.

(** X2: what [check_if_clean] answers when git succeeds and the status names
    the branch, or no branch and a tag: the repository is in sync, or that is
    not asked, and has no unstaged change, or that is not asked.  On a branch
    being in sync is read off [Your branch is up to date with], on a tag off
    [nothing to commit]. *)
Theorem check_if_clean_decides : forall artifact skip_up_to_date skip_unstaged e out,
  let path := realpath os (Path.join ROOT_PATH [REPO_RELATIVE_PATH; artifact]) e in
  let unstaged := Re.search_text "Changes not staged for commit:" out in
  fst (check_output os "git status -uno" path e) = inl out ->
  (names_ref "On branch " out ->
     value (check_if_clean os artifact skip_up_to_date skip_unstaged e) =
       Val ((skip_up_to_date || Re.search_text "Your branch is up to date with" out)
            && (skip_unstaged || negb unstaged))) /\
  (has_line "On branch " out = false -> names_ref "HEAD detached at " out ->
     value (check_if_clean os artifact skip_up_to_date skip_unstaged e) =
       Val ((skip_up_to_date || Re.search_text "nothing to commit" out)
            && (skip_unstaged || negb unstaged))).
Proof.
  intros artifact su sus e out path unstaged Hout.
  assert (Hrun : forall g,
            (Re.search on_branch_regex out = Some g \/
             Re.search on_branch_regex out = None /\ Re.search head_detached_regex out = Some g) ->
            forall up_to_date,
            up_to_date = match Re.search on_branch_regex out with
                         | Some _ => Re.search_text "Your branch is up to date with" out
                         | None => Re.search_text "nothing to commit" out
                         end ->
            value (check_if_clean os artifact su sus e) =
              Val ((su || up_to_date) && (sus || negb unstaged))).
  { intros g Hg up_to_date ->.
    unfold check_if_clean, bind, os_path_realpath, ask, print, effect.
    cbn [value final events]. rewrite run_command_run. cbn [value final events].
    fold path. rewrite Hout. cbn [negb]. fold unstaged.
    destruct Hg as [-> | [-> ->]]; cbn [group1 ret value final events];
      [ destruct (Re.search_text "Your branch is up to date with" out)
      | destruct (Re.search_text "nothing to commit" out) ];
      destruct su, sus, unstaged; reflexivity. }
  split.
  - intros Href. destruct (ReFacts.search_names_ref on_branch_regex out eq_refl Href) as [g Hg].
    rewrite (Hrun g (or_introl Hg) _ eq_refl). now rewrite Hg.
  - intros Hnone Href.
    pose proof (ReFacts.search_no_line on_branch_regex out eq_refl eq_refl Hnone) as Hb.
    destruct (ReFacts.search_names_ref head_detached_regex out eq_refl Href) as [g Hg].
    rewrite (Hrun g (or_intror (conj Hb Hg)) _ eq_refl). now rewrite Hb.
Qed.

(** *** The installer *)

Lemma run_command_emits : forall (P : event -> Prop) cmd where_,
  P (Subprocess cmd where_) -> emits P (run_command os cmd where_ false).
Proof.
  intros P cmd where_ H. unfold run_command. cbn [negb].
  apply emits_bind; [apply emits_ret|intros _].
  apply emits_bind; [|intros [out|out]; apply emits_ret].
  intros e. cbn. now repeat constructor.
Qed.

Lemma get_branch_name_emits : forall artifact, emits harmless (get_branch_name os artifact).
Proof.
  intros artifact. unfold get_branch_name, os_path_realpath.
  apply emits_bind; [apply emits_ask|intros path].
  apply emits_bind; [now apply run_command_emits|intros [ok out]].
  emits_all.
Qed.

Lemma check_if_clean_emits : forall artifact skip_up_to_date skip_unstaged,
  emits harmless (check_if_clean os artifact skip_up_to_date skip_unstaged).
Proof.
  intros artifact su sus. unfold check_if_clean, os_path_realpath.
  apply emits_bind; [now apply emits_print|intros _].
  apply emits_bind; [apply emits_ask|intros path].
  apply emits_bind; [now apply run_command_emits|intros [ok out]].
  emits_all; exact I.
Qed.

(** After the directory, [subcopy_mastodon_jar] only prints and copies. *)
Lemma subcopy_mastodon_jar_events : forall target_dir e,
  let copy_dir := Str.slice_to_minus 4 target_dir in
  exists rest,
    events (subcopy_mastodon_jar os target_dir e) =
      ((if path_exists os copy_dir e then [] else [Mkdir copy_dir]) ++ rest)%list /\
    Forall copying rest.
Proof.
  intros target_dir e copy_dir. unfold subcopy_mastodon_jar. fold copy_dir.
  rewrite events_bind. cbn [os_path_exists ask value final events app].
  destruct (path_exists os copy_dir e); cbn [negb];
    apply events_bind_emits; intros _;
    unfold glob_glob, copy_jar, shutil_copy; emits_all; exact I.
Qed.

(** What the block of [install] for a local directory does once the branch
    of the primary artifact is known. *)
Lemma local_directory_run : forall e branch_name e1 t1,
  get_branch_name os "mastodon" e = Outcome (Val branch_name) e1 t1 ->
  let name :=
    if Str.startswith (Str.lower branch_name) "mastodon"
    then "./" ++ branch_name ++ "-" ++ isoformat (today os e1) ++ "-all"
    else "./Mastodon-" ++ branch_name ++ "-" ++ isoformat (today os e1) ++ "-all" in
  let target_dir := realpath os name e1 in
  let e2 := if path_exists os target_dir e1 then e1 else mkdir os target_dir e1 in
  let cmd := "mvn clean install -Dscijava.app.directory="
             ++ Path.normpath (Path.join (getcwd os e2) [target_dir]) in
  local_directory os e =
    Outcome (Val (target_dir, cmd)) e2
      (t1 ++ (if path_exists os target_dir e1 then [] else [Mkdir target_dir])
          ++ [Print ("Installing to " ++ target_dir)])%list.
Proof.
  intros e branch_name e1 t1 H name target_dir e2 cmd.
  unfold local_directory. rewrite (bind_val _ _ _ _ _ _ (f_equal value H)).
  rewrite H. cbn [value final events].
  unfold bind, os_path_realpath, os_path_exists, os_path_abspath, ask, print, effect, ret.
  cbn [value final events]. fold name. fold target_dir.
  subst cmd e2. destruct (path_exists os target_dir e1); reflexivity.
Qed.

Lemma local_directory_raises : forall e x e1 t1,
  get_branch_name os "mastodon" e = Outcome (Raise x) e1 t1 ->
  local_directory os e = Outcome (Raise x) e1 t1.
Proof.
  intros e x e1 t1 H. unfold local_directory, bind. now rewrite H.
Qed.

(** The events of [install] in local-directory mode. *)
Lemma install_local_events : forall e branch_name e1 t1,
  get_branch_name os "mastodon" e = Outcome (Val branch_name) e1 t1 ->
  let name :=
    if Str.startswith (Str.lower branch_name) "mastodon"
    then "./" ++ branch_name ++ "-" ++ isoformat (today os e1) ++ "-all"
    else "./Mastodon-" ++ branch_name ++ "-" ++ isoformat (today os e1) ++ "-all" in
  let target_dir := realpath os name e1 in
  let e2 := if path_exists os target_dir e1 then e1 else mkdir os target_dir e1 in
  let cmd := "mvn clean install -Dscijava.app.directory="
             ++ Path.normpath (Path.join (getcwd os e2) [target_dir]) in
  let built := check_output os cmd "../mastodon-app" e2 in
  events (install os false e) =
    (t1 ++ (if path_exists os target_dir e1 then [] else [Mkdir target_dir])
        ++ [Print ("Installing to " ++ target_dir); Subprocess cmd "../mastodon-app"]
        ++ match fst built with
           | inr out => [Print ("Problem during install: " ++ out)]
           | inl _ => events (subcopy_mastodon_jar os target_dir (snd built))
           end)%list.
Proof.
  intros e branch_name e1 t1 H name target_dir e2 cmd built.
  unfold install. cbn [negb]. rewrite events_bind.
  rewrite (local_directory_run _ _ _ _ H). cbn [value final events].
  fold name. fold target_dir. fold e2. fold cmd.
  rewrite events_bind, run_command_run. cbn [value final events].
  change (Path.join REPO_RELATIVE_PATH ["mastodon-app"]) with "../mastodon-app".
  fold built. rewrite <- !app_assoc. cbn [app].
  destruct (fst built) as [out|out]; cbn [negb].
  - rewrite events_bind. cbn [ret events]. 
    destruct (value _); now rewrite app_nil_r.
  - reflexivity.
Qed.

(** C7: in local-directory mode, with the primary artifact on the branch
    [mastodon-dev] on 2024-01-15, the destination is the directory
    [mastodon-dev-2024-01-15-all] and the copy goes to its sibling
    [mastodon-dev-2024-01-15], the name less its last four characters; each is
    made when, and only when, it is not there yet, and no other directory is
    made. *)
Theorem local_install_directories : forall e e1 t1 parent,
  get_branch_name os "mastodon" e = Outcome (Val "mastodon-dev") e1 t1 ->
  today os e1 = Date 2024 1 15 ->
  realpath os "./mastodon-dev-2024-01-15-all" e1 = parent ++ "/mastodon-dev-2024-01-15-all" ->
  let target_dir := parent ++ "/mastodon-dev-2024-01-15-all" in
  let copy_dir := parent ++ "/mastodon-dev-2024-01-15" in
  let e2 := if path_exists os target_dir e1 then e1 else mkdir os target_dir e1 in
  let cmd := "mvn clean install -Dscijava.app.directory="
             ++ Path.normpath (Path.join (getcwd os e2) [target_dir]) in
  let built := check_output os cmd "../mastodon-app" e2 in
  exists rest,
    events (install os false e) =
      (t1 ++ (if path_exists os target_dir e1 then [] else [Mkdir target_dir])
          ++ [Print ("Installing to " ++ target_dir); Subprocess cmd "../mastodon-app"]
          ++ match fst built with
             | inr out => [Print ("Problem during install: " ++ out)]
             | inl _ =>
                 (if path_exists os copy_dir (snd built) then [] else [Mkdir copy_dir]) ++ rest
             end)%list
    /\ Forall harmless t1 /\ Forall copying rest.
Proof.
  intros e e1 t1 parent Hbranch Htoday Hreal target_dir copy_dir e2 cmd built.
  pose proof (install_local_events _ _ _ _ Hbranch) as H. cbv zeta in H.
  rewrite Htoday in H.
  change (if Str.startswith (Str.lower "mastodon-dev") "mastodon"
          then "./" ++ "mastodon-dev" ++ "-" ++ isoformat (Date 2024 1 15) ++ "-all"
          else "./Mastodon-" ++ "mastodon-dev" ++ "-" ++ isoformat (Date 2024 1 15) ++ "-all")
    with "./mastodon-dev-2024-01-15-all" in H.
  rewrite Hreal in H. fold target_dir in H. fold e2 in H. fold cmd in H. fold built in H.
  destruct (subcopy_mastodon_jar_events target_dir (snd built)) as (rest & Hcopy & Hrest).
  cbv zeta in Hcopy.
  replace (Str.slice_to_minus 4 target_dir) with copy_dir in Hcopy.
  - exists rest. rewrite H, Hcopy. split; [reflexivity|]. split; [|assumption].
    pose proof (get_branch_name_emits "mastodon" e) as Ht. now rewrite Hbranch in Ht.
  - subst target_dir copy_dir.
    change "/mastodon-dev-2024-01-15-all" with ("/mastodon-dev-2024-01-15" ++ "-all").
    rewrite <- StrFacts.append_assoc.
    symmetry. apply (StrFacts.slice_to_minus_append _ "-all").
Qed.


(** X3: in default-location mode [install] makes no directory: it runs the
    build in the umbrella repository and reports a failure with the output of
    the build. *)
Theorem default_install : forall e,
  let built := check_output os "mvn clean install" "../mastodon-app" e in
  install os true e =
    match fst built with
    | inl _ =>
        Outcome (Val None) (snd built)
          [ Print "Installing to default SciJava location";
            Subprocess "mvn clean install" "../mastodon-app" ]
    | inr out =>
        Outcome (Val (Some false)) (snd built)
          [ Print "Installing to default SciJava location";
            Subprocess "mvn clean install" "../mastodon-app";
            Print ("Problem during install: " ++ out) ]
    end.
Proof.
  intros e built. unfold install. cbn [negb].
  unfold bind, print, effect, ret. cbn [value final events].
  rewrite run_command_run. cbn [value final events].
  change (Path.join REPO_RELATIVE_PATH ["mastodon-app"]) with "../mastodon-app".
  fold built. destruct (fst built); reflexivity.
Qed.

(** *** The run *)

Lemma harmless_quiet : forall ev, harmless ev -> quiet ev.
Proof.
  intros [line|cmd cwd|path|path|src dst] H; cbn in H; try contradiction;
    [|subst cmd]; split; reflexivity.
Qed.

Lemma copying_installing : forall ev, copying ev -> installing ev.
Proof. intros [line|cmd cwd|path|path|src dst] H; cbn in *; tauto. Qed.

Lemma installing_filters : forall t,
  Forall installing t ->
  filter is_open t = [] /\ filter is_checkout t = [] /\ filter is_status t = [].
Proof.
  intros t H. repeat split; apply filter_nothing; (eapply Forall_impl; [|exact H]);
    intros [line|cmd cwd|path|path|src dst] Hev; cbn in Hev |- *;
    try reflexivity; try contradiction; destruct Hev as [rest ->]; reflexivity.
Qed.

(** [get_branch_name] runs one command, whatever comes of it. *)
Lemma get_branch_name_events : forall artifact e,
  events (get_branch_name os artifact e) =
    [Subprocess "git status -uno"
       (realpath os (Path.join ROOT_PATH [REPO_RELATIVE_PATH; artifact]) e)].
Proof.
  intros artifact e. unfold get_branch_name.
  rewrite events_bind. cbn [os_path_realpath ask value final events app].
  rewrite events_bind, run_command_run. cbn [value final events app].
  destruct (fst (check_output os _ _ e)) as [out|out];
    destruct (Re.search on_branch_regex out); cbn [ret events]; try reflexivity;
    destruct (Re.search head_detached_regex out); reflexivity.
Qed.

(** In local-directory mode [install] asks for the branch of the primary
    artifact, and goes on with events of the install. *)
Lemma install_local_classified : forall e,
  exists rest,
    events (install os false e) =
      Subprocess "git status -uno"
        (realpath os (Path.join ROOT_PATH [REPO_RELATIVE_PATH; "mastodon"]) e) :: rest /\
    Forall installing rest.
Proof.
  intros e. pose proof (get_branch_name_events "mastodon" e) as Ht.
  destruct (get_branch_name os "mastodon" e) as [[branch_name|x] e1 t1] eqn:Hbranch;
    cbn [events] in Ht; subst t1.
  - rewrite (install_local_events _ _ _ _ Hbranch). cbn [app]. eexists. split; [reflexivity|].
    apply Forall_app. split; [destruct (path_exists os _ e1); repeat constructor|].
    constructor; [exact I|]. constructor; [now eexists|].
    destruct (fst (check_output os _ _ _)) as [out|out]; [|repeat constructor].
    match goal with
    | |- context [events (subcopy_mastodon_jar os ?dir ?e')] =>
        destruct (subcopy_mastodon_jar_events dir e') as (rest & -> & Hrest)
    end.
    apply Forall_app. split; [destruct (path_exists os _ _); repeat constructor|].
    eapply Forall_impl; [apply copying_installing|exact Hrest].
  - unfold install. cbn [negb]. rewrite events_bind.
    rewrite (local_directory_raises _ _ _ _ Hbranch). cbn [value events app].
    eexists. split; [reflexivity|constructor].
Qed.

(** C8: a preview run that installs to a local directory and builds no
    artifact is the install stage between its banners and nothing else: the
    descriptor is not opened, no checkout is run, of a version or of master,
    and the one [git status] is the installer's question about the branch of
    the primary artifact, not a cleanliness check. *)
Theorem preview_runs_the_install_only : forall skip_up_to_date skip_unstaged e,
  run os false true false skip_up_to_date skip_unstaged e =
    (print (Str.nl ++ "----------") ;;
     print "Installing" ;;
     _ <- install os false ;;
     print "Done." ;;
     print "Install finished. ") e
  /\ filter is_open (events (run os false true false skip_up_to_date skip_unstaged e)) = []
  /\ filter is_checkout (events (run os false true false skip_up_to_date skip_unstaged e)) = []
  /\ filter is_status (events (run os false true false skip_up_to_date skip_unstaged e)) =
       [Subprocess "git status -uno"
          (realpath os (Path.join ROOT_PATH [REPO_RELATIVE_PATH; "mastodon"]) e)].
Proof.
  intros su sus e.
  assert (Hrun : run os false true false su sus e =
    (print (Str.nl ++ "----------") ;; print "Installing" ;; _ <- install os false ;;
     print "Done." ;; print "Install finished. ") e).
  { unfold run. cbn [negb]. rewrite bind_ret_l.
    apply bind_ext; intros _ e1. apply bind_ext; intros _ e2.
    apply bind_ext; intros _ e3. apply bind_ext; intros _ e4.
    apply (bind_ret_l _ _ tt (fun _ => print "Install finished. ")). }
  split; [exact Hrun|]. rewrite Hrun.
  rewrite !events_bind. cbn [print effect value final events app].
  destruct (install_local_classified e) as (rest & -> & Hrest).
  assert (Hall : Forall installing
            (rest ++ match value (install os false e) with
                     | Val _ => [Print "Done."; Print "Install finished. "]
                     | Raise _ => []
                     end)%list).
  { apply Forall_app. split; [exact Hrest|].
    destruct (value (install os false e)); repeat constructor. }
  destruct (installing_filters _ Hall) as (Ho & Hc & Hs).
  replace (match value (install os false e) with
           | Val _ => ([Print "Done."] ++ [Print "Install finished. "])%list
           | Raise _ => []
           end)
    with (match value (install os false e) with
          | Val _ => [Print "Done."; Print "Install finished. "]
          | Raise _ => []
          end) by (now destruct (value (install os false e))).
  cbn [app filter is_open is_checkout is_status prefix String.eqb Ascii.eqb Bool.eqb orb].
  rewrite Ho, Hc, Hs. repeat split.
Qed.

(** *** The way back to master *)

Lemma back_to_master_run : forall artifact e,
  value (back_to_master os artifact e) = Val tt /\
  filter is_checkout (events (back_to_master os artifact e)) =
    [Subprocess "git checkout master"
       (realpath os (Path.join ROOT_PATH [REPO_RELATIVE_PATH; artifact]) e)].
Proof.
  intros artifact e. unfold back_to_master, git_checkout_master, bind, os_path_realpath, ask.
  cbn [value final events]. rewrite run_command_run. cbn [value final events].
  destruct (fst (check_output os _ _ e)) as [out|out]; split; reflexivity.
Qed.


(** *** The gate before the checkouts *)

Lemma get_artifact_version_emits : forall artifact_name,
  emits quiet (get_artifact_version os artifact_name).
Proof.
  intros artifact_name e. rewrite get_artifact_version_run. cbn [events].
  repeat constructor.
Qed.

Lemma print_version_run : forall artifact e,
  print_version os artifact e =
    Outcome (Val tt) e
      [ Open PATH_TO_POM_FILE;
        Print (" " ++ Str.rjust 30 artifact ++ " -> "
               ++ match Re.search (version_regex artifact) (read_file os PATH_TO_POM_FILE e) with
                  | Some group => group
                  | None => ""
                  end) ].
Proof.
  intros artifact e. unfold print_version, bind.
  rewrite get_artifact_version_run. reflexivity.
Qed.

(** Printing the versions changes nothing outside. *)
Lemma print_versions_run : forall l e,
  exists t, for_each l (print_version os) e = Outcome (Val tt) e t /\ Forall quiet t.
Proof.
  induction l as [|artifact l IH]; intros e; cbn [for_each].
  - exists []. split; [reflexivity|constructor].
  - destruct (IH e) as (t & Ht & Hq).
    rewrite (bind_val _ _ _ _ _ _ (f_equal value (print_version_run artifact e))).
    rewrite print_version_run. cbn [final events]. rewrite Ht. cbn [value final events app].
    eexists. split; [reflexivity|].
    repeat (constructor; [split; reflexivity|]). exact Hq.
Qed.

Lemma check_or_return_run : forall skip_up_to_date skip_unstaged artifact e clean,
  value (check_if_clean os artifact skip_up_to_date skip_unstaged e) = Val clean ->
  check_or_return os skip_up_to_date skip_unstaged artifact e =
    Outcome (Val (negb clean))
            (final (check_if_clean os artifact skip_up_to_date skip_unstaged e))
            (events (check_if_clean os artifact skip_up_to_date skip_unstaged e)).
Proof.
  intros su sus artifact e clean H. unfold check_or_return.
  rewrite (bind_val _ _ _ _ _ _ H). cbn [ret value final events].
  now rewrite app_nil_r.
Qed.

(** While the repositories pass, the loop of the checks goes on. *)
Lemma checks_pass_loop : forall skip_up_to_date skip_unstaged l e e',
  checks_pass os skip_up_to_date skip_unstaged l e e' ->
  exists t,
    for_each_until l (check_or_return os skip_up_to_date skip_unstaged) e =
      Outcome (Val false) e' t /\
    Forall harmless t.
Proof.
  intros su sus l e e' H. induction H as [e|artifact l e e' Hclean Hrest (t & Ht & Hh)].
  - exists []. split; [reflexivity|constructor].
  - cbn [for_each_until].
    rewrite (bind_val _ _ _ _ _ _ (f_equal value (check_or_return_run _ _ _ _ _ Hclean))).
    rewrite (check_or_return_run _ _ _ _ _ Hclean). cbn [negb value final events].
    rewrite Ht. cbn [value final events]. eexists. split; [reflexivity|].
    apply Forall_app. split; [apply check_if_clean_emits|exact Hh].
Qed.

(** A repository that fails the check makes [run] return out of its first
    part, with nothing checked out and nothing built. *)
Lemma prepare_stops : forall do_install skip_up_to_date skip_unstaged l1 artifact l2 e e1,
  ARTIFACTS = (l1 ++ artifact :: l2)%list ->
  checks_pass os skip_up_to_date skip_unstaged l1 e e1 ->
  value (check_if_clean os artifact skip_up_to_date skip_unstaged e1) = Val false ->
  exists e' t,
    prepare os do_install skip_up_to_date skip_unstaged e = Outcome (Val true) e' t /\
    Forall quiet t.
Proof.
  intros do_install su sus l1 artifact l2 e e1 HA Hpass Hfail.
  destruct (print_versions_run ARTIFACTS e) as (tv & Hv & Fv).
  destruct (checks_pass_loop _ _ _ _ _ Hpass) as (tc & Hc & Fc).
  pose proof (check_or_return_run _ _ _ _ _ Hfail) as Hret. cbn [negb] in Hret.
  pose proof (for_each_until_stops _ (check_or_return os su sus) l1 artifact l2 e e1 tc Hc
                (f_equal value Hret)) as Hstop.
  rewrite <- HA, Hret in Hstop. cbn [final events] in Hstop.
  eexists _, _. split.
  - unfold prepare.
    eapply bind_outcome; [reflexivity|]. eapply bind_outcome; [reflexivity|].
    eapply bind_outcome; [exact Hv|].
    eapply bind_outcome; [reflexivity|]. eapply bind_outcome; [reflexivity|].
    eapply bind_outcome; [exact Hstop|]. reflexivity.
  - assert (Hp : forall line, quiet (Print line)) by (intros line; split; reflexivity).
    apply Forall_app; split; [repeat constructor; apply Hp|].
    apply Forall_app; split; [repeat constructor; apply Hp|].
    apply Forall_app; split; [exact Fv|].
    apply Forall_app; split; [repeat constructor; apply Hp|].
    apply Forall_app; split; [repeat constructor; apply Hp|].
    apply Forall_app; split; [|constructor].
    apply Forall_app; split.
    + eapply Forall_impl; [apply harmless_quiet|exact Fc].
    + eapply Forall_impl; [apply harmless_quiet|apply check_if_clean_emits].
Qed.

(** C9: in a run that is no preview, when a repository fails the
    cleanliness check (those before it having passed), the run ends there:
    among its events there is no checkout and no build. *)
Theorem failed_check_stops_the_run :
  forall install_to_default do_install skip_up_to_date skip_unstaged l1 artifact l2 e e1,
  ARTIFACTS = (l1 ++ artifact :: l2)%list ->
  checks_pass os skip_up_to_date skip_unstaged l1 e e1 ->
  value (check_if_clean os artifact skip_up_to_date skip_unstaged e1) = Val false ->
  let o := run os install_to_default false do_install skip_up_to_date skip_unstaged e in
  value o = Val tt /\ filter is_checkout (events o) = [] /\ filter is_install (events o) = [].
Proof.
  intros itd do_install su sus l1 artifact l2 e e1 HA Hpass Hfail o.
  destruct (prepare_stops do_install _ _ _ _ _ _ _ HA Hpass Hfail) as (e' & t & Hp & Hq).
  subst o. unfold run. cbn [negb].
  rewrite (bind_val _ _ _ _ _ _ (f_equal value Hp)). rewrite Hp.
  cbn [ret value final events]. rewrite app_nil_r. split; [reflexivity|].
  split; apply filter_nothing; (eapply Forall_impl; [|exact Hq]); intros ev [Hc Hi]; assumption.
Qed.

End ScriptFacts.

(** ** More on the script's functions *)

Section Coverage.

Context {Env : Type} (os : Platform Env).

(** *** Reading the status *)

(** The value of [check_if_clean], by what git answers and what the two
    patterns find. *)
Lemma check_if_clean_value : forall artifact skip_up_to_date skip_unstaged e,
  let path := realpath os (Path.join ROOT_PATH [REPO_RELATIVE_PATH; artifact]) e in
  value (check_if_clean os artifact skip_up_to_date skip_unstaged e) =
    match fst (check_output os "git status -uno" path e) with
    | inr _ => Val false
    | inl out =>
        let unstaged := Re.search_text "Changes not staged for commit:" out in
        match Re.search on_branch_regex out, Re.search head_detached_regex out with
        | Some _, _ =>
            Val ((skip_up_to_date || Re.search_text "Your branch is up to date with" out)
                 && (skip_unstaged || negb unstaged))
        | None, Some _ =>
            Val ((skip_up_to_date || Re.search_text "nothing to commit" out)
                 && (skip_unstaged || negb unstaged))
        | None, None => Raise AttributeError
        end
    end.
Proof.
  intros artifact su sus e path.
  unfold check_if_clean, bind, os_path_realpath, ask, print, effect.
  cbn [value final events]. rewrite run_command_run. cbn [value final events].
  fold path. destruct (fst (check_output os "git status -uno" path e)) as [out|out];
    [|reflexivity].
  cbn [negb]. cbv zeta.
  destruct (Re.search on_branch_regex out) as [branch|].
  - cbn [ret value final events].
    destruct su, sus, (Re.search_text "Your branch is up to date with" out),
      (Re.search_text "Changes not staged for commit:" out); reflexivity.
  - destruct (Re.search head_detached_regex out) as [tag|]; [|reflexivity].
    cbn [group1 ret value final events].
    destruct su, sus, (Re.search_text "nothing to commit" out),
      (Re.search_text "Changes not staged for commit:" out); reflexivity.
Qed.


(** X6: the cleanliness check reads and does not write: whatever git answers
    and whatever the check returns, or raises, its one command is
    [git status -uno] in the artifact's repository, it leaves the environment
    as that command left it, and it only prints besides. *)
Theorem check_is_read_only : forall artifact skip_up_to_date skip_unstaged e,
  let path := realpath os (Path.join ROOT_PATH [REPO_RELATIVE_PATH; artifact]) e in
  let o := check_if_clean os artifact skip_up_to_date skip_unstaged e in
  filter is_subprocess (events o) = [Subprocess "git status -uno" path] /\
  final o = snd (check_output os "git status -uno" path e) /\
  Forall (fun ev => is_subprocess ev = true \/ exists line, ev = Print line) (events o).
Proof.
  intros artifact su sus e path o. subst o.
  unfold check_if_clean, bind, os_path_realpath, ask, print, effect.
  cbn [value final events]. rewrite run_command_run. cbn [value final events].
  fold path.
  destruct (fst (check_output os "git status -uno" path e)) as [out|out]; cbn [negb].
  - destruct (Re.search on_branch_regex out) as [branch|];
      [|destruct (Re.search head_detached_regex out) as [tag|]];
      cbn [group1 raise ret value final events];
      try (destruct (negb su && negb (Re.search_text _ out));
           [|destruct (negb sus && Re.search_text "Changes not staged for commit:" out)]);
      cbn [value final events app filter is_subprocess];
      (split; [reflexivity|split; [reflexivity|]]);
      repeat (constructor; [first [now left | right; now eexists]|]); constructor.
  - cbn [ret value final events app filter is_subprocess].
    split; [reflexivity|split; [reflexivity|]].
    repeat (constructor; [first [now left | right; now eexists]|]); constructor.
Qed.

(** X7: an override never makes the check fail: a repository that passes
    with no override passes whatever the overrides. *)
Theorem overrides_only_relax : forall artifact skip_up_to_date skip_unstaged e,
  value (check_if_clean os artifact false false e) = Val true ->
  value (check_if_clean os artifact skip_up_to_date skip_unstaged e) = Val true.
Proof.
  intros artifact su sus e. rewrite !check_if_clean_value. cbv zeta.
  destruct (fst (check_output os _ _ e)) as [out|out]; [|discriminate].
  destruct (Re.search on_branch_regex out);
    [|destruct (Re.search head_detached_regex out); [|discriminate]];
    cbn [orb]; intros H; injection H as H; apply andb_true_iff in H;
    destruct H as [-> ->]; now rewrite !orb_true_r.
Qed.

(** X8: with both overrides the check returns [False] only when git itself
    failed; on a status it does not recognise it still raises. *)
Theorem overrides_disarm_the_check : forall artifact e,
  let path := realpath os (Path.join ROOT_PATH [REPO_RELATIVE_PATH; artifact]) e in
  (value (check_if_clean os artifact true true e) = Val false <->
   exists out, fst (check_output os "git status -uno" path e) = inr out) /\
  (value (check_if_clean os artifact true true e) = Raise AttributeError <->
   exists out, fst (check_output os "git status -uno" path e) = inl out /\
               Re.search on_branch_regex out = None /\
               Re.search head_detached_regex out = None).
Proof.
  intros artifact e path. rewrite check_if_clean_value. cbv zeta. fold path.
  destruct (fst (check_output os "git status -uno" path e)) as [out|out];
    [destruct (Re.search on_branch_regex out) as [branch|] eqn:Eb;
       [|destruct (Re.search head_detached_regex out) as [tag|] eqn:Et]|];
    cbn [orb andb];
    (split; split;
     [ intros Hv;
       first [ discriminate Hv
             | eexists; first [reflexivity | split; [reflexivity|split; assumption]] ]
     | intros Hex;
       first [ reflexivity
             | destruct Hex as (o & H);
               first [ discriminate H
                     | destruct H as (H & Hb & Ht);
                       first [discriminate H | injection H as <-; congruence] ] ]
     | intros Hv;
       first [ discriminate Hv
             | eexists; first [reflexivity | split; [reflexivity|split; assumption]] ]
     | intros Hex;
       first [ reflexivity
             | destruct Hex as (o & H);
               first [ discriminate H
                     | destruct H as (H & Hb & Ht);
                       first [discriminate H | injection H as <-; congruence] ] ] ]).
Qed.

(** *** Reading the descriptor *)

Lemma absent_version_search : forall artifact_name pom,
  (forall X, ~ occurs (("<" ++ artifact_name ++ ".version>") ++ X
                       ++ "</" ++ artifact_name ++ ".version>") pom) ->
  Re.search (version_regex artifact_name) pom = None.
Proof.
  intros artifact_name pom Habsent.
  destruct (Re.search (version_regex artifact_name) pom) as [g|] eqn:E; [|reflexivity].
  destruct (ReFacts.search_from_sound _ _ _ _ E) as (before & after & Hpom & Ht & _).
  cbn [version_regex Re.closing Re.opening Re.tail_matches] in Hpom, Ht.
  destruct (StrFacts.prefix_split _ _ Ht) as [r ->].
  elim (Habsent g). exists before, r. rewrite Hpom. now rewrite !StrFacts.append_assoc.
Qed.


(** X10: an artifact the descriptor does not name has the empty version, which
    is no snapshot: in the loop of [run] its repository is switched to the
    ref made of its name and a hyphen. *)
Theorem missing_version_switches_to_bare_ref : forall do_install artifact e,
  Re.literal artifact = true ->
  (forall X, ~ occurs (("<" ++ artifact ++ ".version>") ++ X ++ "</" ++ artifact ++ ".version>")
                      (read_file os PATH_TO_POM_FILE e)) ->
  let path := realpath os (Path.join ROOT_PATH [REPO_RELATIVE_PATH; artifact]) e in
  exists rest,
    events (checkout_or_return os do_install artifact e) =
      ([ Open PATH_TO_POM_FILE;
         Print "Getting tags from remote.";
         Subprocess "git pull --tags" path;
         Print ("Checking out version  of module " ++ artifact);
         Subprocess ("git -c advice.detachedHead=false checkout " ++ artifact ++ "-") path ]
       ++ rest)%list.
Proof.
  intros do_install artifact e _ Habsent path.
  unfold checkout_or_return. rewrite events_bind, get_artifact_version_run.
  cbn [value final events]. rewrite (absent_version_search _ _ Habsent).
  rewrite events_bind, git_checkout_version_run by reflexivity. fold path.
  destruct (fst (check_output os _ _ (snd _))); [destruct do_install|];
    [destruct (fst (check_output os "mvn clean install" _ _))| |];
    cbn [value final events app]; eexists; reflexivity.
Qed.

(** *** The installer *)

Lemma get_branch_name_crash : forall artifact e out,
  let path := realpath os (Path.join ROOT_PATH [REPO_RELATIVE_PATH; artifact]) e in
  fst (check_output os "git status -uno" path e) = inl out \/
  fst (check_output os "git status -uno" path e) = inr out ->
  has_line "On branch " out = false ->
  has_line "HEAD detached at " out = false ->
  get_branch_name os artifact e =
    Outcome (Raise AttributeError) (snd (check_output os "git status -uno" path e))
            [Subprocess "git status -uno" path].
Proof.
  intros artifact e out path Hout Hb Ht.
  apply (ReFacts.search_no_line on_branch_regex out eq_refl eq_refl) in Hb.
  apply (ReFacts.search_no_line head_detached_regex out eq_refl eq_refl) in Ht.
  unfold get_branch_name, bind, os_path_realpath, ask.
  cbn [value final events]. rewrite run_command_run. cbn [value final events].
  fold path. destruct Hout as [-> | ->]; rewrite Hb, Ht; reflexivity.
Qed.

(** X11: when the status of the primary artifact names neither a branch nor a
    tag, [install] in local-directory mode raises before it has made a
    directory or started the build, and a preview run ends there, with no
    [Done.] printed. *)
Theorem unrecognised_branch_stops_the_install :
  forall do_install skip_up_to_date skip_unstaged e out,
  let path := realpath os (Path.join ROOT_PATH [REPO_RELATIVE_PATH; "mastodon"]) e in
  fst (check_output os "git status -uno" path e) = inl out \/
  fst (check_output os "git status -uno" path e) = inr out ->
  has_line "On branch " out = false ->
  has_line "HEAD detached at " out = false ->
  install os false e =
    Outcome (Raise AttributeError) (snd (check_output os "git status -uno" path e))
            [Subprocess "git status -uno" path] /\
  run os false true do_install skip_up_to_date skip_unstaged e =
    Outcome (Raise AttributeError) (snd (check_output os "git status -uno" path e))
            [Print (Str.nl ++ "----------"); Print "Installing";
             Subprocess "git status -uno" path].
Proof.
  intros do_install su sus e out path Hout Hb Ht.
  pose proof (get_branch_name_crash "mastodon" e out Hout Hb Ht) as Hname. fold path in Hname.
  assert (Hinstall : install os false e =
            Outcome (Raise AttributeError) (snd (check_output os "git status -uno" path e))
                    [Subprocess "git status -uno" path]).
  { unfold install. cbn [negb].
    apply bind_raise. exact (local_directory_raises os _ _ _ _ Hname). }
  split; [exact Hinstall|].
  unfold run. cbn [negb]. etransitivity.
  - eapply bind_outcome; [reflexivity|]. cbv iota.
    eapply bind_outcome; [reflexivity|]. eapply bind_outcome; [reflexivity|].
    apply bind_raise. exact Hinstall.
  - reflexivity.
Qed.



(** X12: [subcopy_mastodon_jar] writes only into the copy directory, the
    target's name less its last four characters: for a target [stem-all] it
    makes no directory but [stem], copies no file but into [stem], and runs no
    command. *)
Theorem jars_go_to_the_sibling : forall stem e,
  Forall (writes_into stem) (events (subcopy_mastodon_jar os (stem ++ "-all") e)).
Proof.
  intros stem. change (emits (writes_into stem) (subcopy_mastodon_jar os (stem ++ "-all"))).
  unfold subcopy_mastodon_jar, os_path_exists, os_mkdir, glob_glob, copy_jar, shutil_copy.
  cbv zeta.
  replace (Str.slice_to_minus 4 (stem ++ "-all")) with stem
    by (symmetry; apply (StrFacts.slice_to_minus_append stem "-all")).
  emits_all; cbn; auto.
Qed.


(** *** The run, past the checks *)

Lemma run_command_before_install : forall cmd where_,
  cmd <> "git checkout master" ->
  emits before_install (run_command os cmd where_ false).
Proof. intros cmd where_ H. now apply run_command_emits. Qed.

Lemma check_if_clean_before_install : forall artifact skip_up_to_date skip_unstaged,
  emits before_install (check_if_clean os artifact skip_up_to_date skip_unstaged).
Proof.
  intros artifact su sus. unfold check_if_clean, os_path_realpath.
  apply emits_bind; [apply emits_print; discriminate|intros _].
  apply emits_bind; [apply emits_ask|intros path].
  apply emits_bind; [apply run_command_before_install; discriminate|intros [ok out]].
  emits_all; discriminate.
Qed.

Lemma git_checkout_version_before_install : forall artifact version do_install,
  emits before_install (git_checkout_version os artifact version do_install).
Proof.
  intros artifact version do_install. unfold git_checkout_version, os_path_realpath.
  destruct (Str.endswith version "SNAPSHOT").
  - emits_all. discriminate.
  - apply emits_bind; [apply emits_ask|intros path].
    apply emits_bind; [apply emits_print; discriminate|intros _].
    apply emits_bind; [apply run_command_before_install; discriminate|intros _].
    apply emits_bind; [apply emits_print; discriminate|intros _].
    apply emits_bind; [apply run_command_before_install; discriminate|intros [ok out]].
    destruct (negb ok); [emits_all; discriminate|].
    destruct do_install; [|apply emits_ret].
    apply emits_bind; [apply emits_print; discriminate|intros _].
    apply emits_bind; [apply run_command_before_install; discriminate|intros [ok' out']].
    emits_all. discriminate.
Qed.

Lemma print_version_before_install : forall artifact,
  emits before_install (print_version os artifact).
Proof.
  intros artifact e. rewrite print_version_run. cbn [events].
  repeat constructor. discriminate.
Qed.

(** The first part of [run] does nothing of the install or of the way back
    to master. *)
Lemma prepare_before_install : forall do_install skip_up_to_date skip_unstaged,
  emits before_install (prepare os do_install skip_up_to_date skip_unstaged).
Proof.
  intros do_install su sus. unfold prepare.
  apply emits_bind; [apply emits_print; discriminate|intros _].
  apply emits_bind; [apply emits_print; discriminate|intros _].
  apply emits_bind; [apply emits_for_each; apply print_version_before_install|intros _].
  apply emits_bind; [apply emits_print; discriminate|intros _].
  apply emits_bind; [apply emits_print; discriminate|intros _].
  apply emits_bind.
  { apply emits_for_each_until. intros artifact. unfold check_or_return.
    apply emits_bind; [apply check_if_clean_before_install|intros clean; apply emits_ret]. }
  intros [|]; [apply emits_ret|].
  apply emits_bind; [apply emits_print; discriminate|intros _].
  apply emits_bind; [apply emits_print; discriminate|intros _].
  apply emits_bind.
  { apply emits_for_each_until. intros artifact. unfold checkout_or_return.
    apply emits_bind; [|intros version].
    - intros e. rewrite get_artifact_version_run. repeat constructor.
    - apply emits_bind; [apply git_checkout_version_before_install|intros done; apply emits_ret]. }
  intros [|]; [apply emits_ret|].
  apply emits_bind; [apply emits_print; discriminate|intros _; apply emits_ret].
Qed.

Lemma checkout_or_return_run : forall do_install artifact e version done,
  value (get_artifact_version os artifact e) = Val version ->
  value (git_checkout_version os artifact version do_install e) = Val done ->
  checkout_or_return os do_install artifact e =
    Outcome (Val (negb done))
            (final (git_checkout_version os artifact version do_install e))
            (Open PATH_TO_POM_FILE
             :: events (git_checkout_version os artifact version do_install e)).
Proof.
  intros do_install artifact e version done Hv Hd. unfold checkout_or_return.
  rewrite get_artifact_version_run in Hv. cbn [value] in Hv. injection Hv as Hv.
  unfold bind at 1. rewrite get_artifact_version_run. cbn [value final events]. rewrite Hv.
  rewrite (bind_val _ _ _ _ _ _ Hd). cbn [ret value final events app].
  now rewrite app_nil_r.
Qed.

(** While the switches succeed, the loop of the checkouts goes on. *)
Lemma switches_pass_loop : forall do_install l e e',
  switches_pass os do_install l e e' ->
  exists t,
    for_each_until l (checkout_or_return os do_install) e = Outcome (Val false) e' t.
Proof.
  intros do_install l e e' H.
  induction H as [e|artifact version l e e' Hv Hd Hrest (t & Ht)].
  - now exists [].
  - cbn [for_each_until]. eexists.
    eapply bind_outcome; [apply (checkout_or_return_run _ _ _ _ _ Hv Hd)|].
    cbn [negb]. exact Ht.
Qed.

(** With every repository clean, a switch that fails makes [run] return out
    of its first part. *)
Lemma prepare_switch_stops :
  forall do_install skip_up_to_date skip_unstaged l1 artifact l2 e e1 e2 version,
  checks_pass os skip_up_to_date skip_unstaged ARTIFACTS e e1 ->
  ARTIFACTS = (l1 ++ artifact :: l2)%list ->
  switches_pass os do_install l1 e1 e2 ->
  value (get_artifact_version os artifact e2) = Val version ->
  value (git_checkout_version os artifact version do_install e2) = Val false ->
  value (prepare os do_install skip_up_to_date skip_unstaged e) = Val true.
Proof.
  intros do_install su sus l1 artifact l2 e e1 e2 version Hchecks HA Hswitch Hv Hfail.
  destruct (print_versions_run os ARTIFACTS e) as (tv & Hversions & _).
  destruct (checks_pass_loop os _ _ _ _ _ Hchecks) as (tc & Hc & _).
  destruct (switches_pass_loop _ _ _ _ Hswitch) as (ts & Hs).
  pose proof (checkout_or_return_run do_install _ _ _ _ Hv Hfail) as Hret. cbn [negb] in Hret.
  pose proof (for_each_until_stops _ (checkout_or_return os do_install) l1 artifact l2
                e1 e2 ts Hs (f_equal value Hret)) as Hstop.
  rewrite <- HA in Hstop.
  assert (Hp : exists e' t, prepare os do_install su sus e = Outcome (Val true) e' t).
  { eexists _, _. unfold prepare.
    eapply bind_outcome; [reflexivity|]. eapply bind_outcome; [reflexivity|].
    eapply bind_outcome; [exact Hversions|].
    eapply bind_outcome; [reflexivity|]. eapply bind_outcome; [reflexivity|].
    eapply bind_outcome; [exact Hc|]. cbv iota.
    eapply bind_outcome; [reflexivity|]. eapply bind_outcome; [reflexivity|].
    eapply bind_outcome; [exact Hstop|]. reflexivity. }
  destruct Hp as (e' & t & ->). reflexivity.
Qed.

(** X14: in a run that is no preview, when every repository is clean and the
    switch of some artifact to its pinned version fails (those before it
    having succeeded), the run ends there: the install stage is not reached
    (its banner is not printed, no directory is made, no file is copied), and
    no repository is taken back to master, so that the artifacts already
    switched stay on their tags. *)
Theorem failed_switch_stops_the_run :
  forall install_to_default do_install skip_up_to_date skip_unstaged
         l1 artifact l2 e e1 e2 version,
  checks_pass os skip_up_to_date skip_unstaged ARTIFACTS e e1 ->
  ARTIFACTS = (l1 ++ artifact :: l2)%list ->
  switches_pass os do_install l1 e1 e2 ->
  value (get_artifact_version os artifact e2) = Val version ->
  value (git_checkout_version os artifact version do_install e2) = Val false ->
  let o := run os install_to_default false do_install skip_up_to_date skip_unstaged e in
  value o = Val tt /\ Forall before_install (events o).
Proof.
  intros itd do_install su sus l1 artifact l2 e e1 e2 version Hchecks HA Hswitch Hv Hfail o.
  pose proof (prepare_switch_stops do_install su sus _ _ _ _ _ _ _ Hchecks HA Hswitch Hv Hfail)
    as Hp.
  subst o. unfold run. cbn [negb]. rewrite (bind_val _ _ _ _ _ _ Hp).
  cbn [ret value final events]. rewrite app_nil_r.
  split; [reflexivity|apply prepare_before_install].
Qed.

(** The value of a sequence whose first part returns. *)
Lemma value_bind : forall A B (m : M Env A) (f : A -> M Env B) e a,
  value (m e) = Val a -> value (bind m f e) = value (f a (final (m e))).
Proof. intros A B m f e a H. unfold bind. now rewrite H. Qed.

(** A loop whose body always ends normally ends normally. *)
Lemma for_each_ends : forall A (body : A -> M Env unit) l,
  (forall a e, value (body a e) = Val tt) ->
  forall e, value (for_each l body e) = Val tt.
Proof.
  intros A body l H. induction l as [|a l IH]; intros e; cbn [for_each]; [reflexivity|].
  rewrite (value_bind _ _ _ _ _ _ (H a e)). apply IH.
Qed.

(** The way back to master always ends normally. *)
Lemma restore_ends : forall l e, value (for_each l (back_to_master os) e) = Val tt.
Proof.
  intros l. apply for_each_ends. intros artifact e. apply (back_to_master_run os).
Qed.

(** X15: in a run that is no preview, once every repository is clean and
    every artifact is switched, the install is run and, whether it succeeds
    or returns [False], [Done.] is printed, every artifact is taken back to
    master and the run ends with [Install finished. ]. *)
Theorem failed_install_still_restores :
  forall install_to_default do_install skip_up_to_date skip_unstaged e e1 e2 outcome,
  checks_pass os skip_up_to_date skip_unstaged ARTIFACTS e e1 ->
  switches_pass os do_install ARTIFACTS e1 e2 ->
  value (install os install_to_default e2) = Val outcome ->
  let o := run os install_to_default false do_install skip_up_to_date skip_unstaged e in
  let restore := for_each ARTIFACTS (back_to_master os) (final (install os install_to_default e2)) in
  value o = Val tt /\
  final o = final restore /\
  exists before,
    Forall before_install before /\
    events o =
      (before ++ [Print (Str.nl ++ "----------"); Print "Installing"]
              ++ events (install os install_to_default e2)
              ++ [Print "Done."; Print (Str.nl ++ "----------");
                  Print "Switching back to master branches"]
              ++ events restore
              ++ [Print "Install finished. "])%list.
Proof.
  intros itd do_install su sus e e1 e2 outcome Hchecks Hswitch Hinstall o restore.
  destruct (print_versions_run os ARTIFACTS e) as (tv & Hversions & _).
  destruct (checks_pass_loop os _ _ _ _ _ Hchecks) as (tc & Hc & _).
  destruct (switches_pass_loop _ _ _ _ Hswitch) as (ts & Hs).
  assert (Hp : exists t, prepare os do_install su sus e = Outcome (Val false) e2 t).
  { eexists. unfold prepare.
    eapply bind_outcome; [reflexivity|]. eapply bind_outcome; [reflexivity|].
    eapply bind_outcome; [exact Hversions|].
    eapply bind_outcome; [reflexivity|]. eapply bind_outcome; [reflexivity|].
    eapply bind_outcome; [exact Hc|]. cbv iota.
    eapply bind_outcome; [reflexivity|]. eapply bind_outcome; [reflexivity|].
    eapply bind_outcome; [exact Hs|]. cbv iota.
    eapply bind_outcome; [reflexivity|]. reflexivity. }
  destruct Hp as (t & Hp).
  pose proof (prepare_before_install do_install su sus e) as Hbefore. rewrite Hp in Hbefore.
  cbn [events] in Hbefore.
  pose proof (restore_ends ARTIFACTS (final (install os itd e2))) as Hrv.
  fold restore in Hrv.
  assert (Hrun : o = Outcome (Val tt) (final restore)
            (t ++ [Print (Str.nl ++ "----------")] ++ [Print "Installing"]
               ++ events (install os itd e2)
               ++ [Print "Done."] ++ ([Print (Str.nl ++ "----------")]
               ++ [Print "Switching back to master branches"] ++ events restore)
               ++ [Print "Install finished. "])%list).
  { subst o. unfold run. cbn [negb].
    eapply bind_outcome; [exact Hp|]. cbv iota.
    eapply bind_outcome; [reflexivity|]. eapply bind_outcome; [reflexivity|].
    eapply bind_outcome; [rewrite <- (outcome_eta _ (install os itd e2)), Hinstall; reflexivity|].
    eapply bind_outcome; [reflexivity|].
    eapply bind_outcome.
    - eapply bind_outcome; [reflexivity|]. eapply bind_outcome; [reflexivity|].
      rewrite <- (outcome_eta _ (for_each ARTIFACTS (back_to_master os) _)).
      fold restore. rewrite Hrv. reflexivity.
    - reflexivity. }
  rewrite Hrun. cbn [value final events]. split; [reflexivity|]. split; [reflexivity|].
  exists t. split; [exact Hbefore|]. cbn [app]. repeat rewrite <- app_assoc.
  cbn [app]. reflexivity.
Qed.

(** *** The result of the install *)




(** *** Every command of a run *)

Lemma installing_known : forall ev, installing ev -> known_command ev.
Proof.
  intros [line|cmd cwd|path|path|src dst] H; cbn [installing known_command] in *;
    try exact I; try contradiction.
  destruct H as [rest ->]. do 4 right. apply StrFacts.prefix_append.
Qed.

Lemma harmless_known : forall ev, harmless ev -> known_command ev.
Proof.
  intros [line|cmd cwd|path|path|src dst] H; cbn [harmless known_command] in *;
    try exact I; try contradiction.
  now left.
Qed.

Lemma emits_impl : forall A (P Q : event -> Prop) (m : M Env A),
  (forall ev, P ev -> Q ev) -> emits P m -> emits Q m.
Proof. intros A P Q m H Hm e. eapply Forall_impl; [exact H|apply Hm]. Qed.

Lemma install_known : forall default_location,
  emits known_command (install os default_location).
Proof.
  intros [|] e.
  - unfold install. cbn [negb]. unfold bind, print, effect, ret. cbn [value final events].
    rewrite run_command_run. cbn [value final events].
    destruct (fst (check_output os _ _ e)); cbn [negb value final events app];
      repeat constructor; do 4 right; reflexivity.
  - destruct (install_local_classified os e) as (rest & -> & Hrest).
    constructor; [now left|].
    eapply Forall_impl; [apply installing_known|exact Hrest].
Qed.

Lemma git_checkout_version_known : forall artifact version do_install,
  emits known_command (git_checkout_version os artifact version do_install).
Proof.
  intros artifact version do_install. unfold git_checkout_version, os_path_realpath.
  destruct (Str.endswith version "SNAPSHOT").
  - emits_all. exact I.
  - apply emits_bind; [apply emits_ask|intros path].
    apply emits_bind; [now apply emits_print|intros _].
    apply emits_bind; [apply run_command_emits; right; now left|intros _].
    apply emits_bind; [now apply emits_print|intros _].
    apply emits_bind; [|intros [ok out]].
    { apply run_command_emits. do 3 right. left. apply StrFacts.prefix_append. }
    destruct (negb ok); [emits_all; exact I|].
    destruct do_install; [|apply emits_ret].
    apply emits_bind; [now apply emits_print|intros _].
    apply emits_bind; [apply run_command_emits; do 4 right; reflexivity|intros [ok' out']].
    emits_all. exact I.
Qed.

Lemma prepare_known : forall do_install skip_up_to_date skip_unstaged,
  emits known_command (prepare os do_install skip_up_to_date skip_unstaged).
Proof.
  intros do_install su sus. unfold prepare.
  apply emits_bind; [now apply emits_print|intros _].
  apply emits_bind; [now apply emits_print|intros _].
  apply emits_bind.
  { apply emits_for_each. intros artifact e. rewrite print_version_run. cbn [events].
    repeat constructor. }
  intros _.
  apply emits_bind; [now apply emits_print|intros _].
  apply emits_bind; [now apply emits_print|intros _].
  apply emits_bind.
  { apply emits_for_each_until. intros artifact. unfold check_or_return.
    apply emits_bind; [|intros clean; apply emits_ret].
    eapply emits_impl; [apply harmless_known|apply check_if_clean_emits]. }
  intros [|]; [apply emits_ret|].
  apply emits_bind; [now apply emits_print|intros _].
  apply emits_bind; [now apply emits_print|intros _].
  apply emits_bind.
  { apply emits_for_each_until. intros artifact. unfold checkout_or_return.
    apply emits_bind; [|intros version].
    - intros e. rewrite get_artifact_version_run. repeat constructor.
    - apply emits_bind; [apply git_checkout_version_known|intros done; apply emits_ret]. }
  intros [|]; [apply emits_ret|].
  apply emits_bind; [now apply emits_print|intros _; apply emits_ret].
Qed.

Lemma back_to_master_known : forall artifact,
  emits known_command (back_to_master os artifact).
Proof.
  intros artifact. unfold back_to_master, git_checkout_master, os_path_realpath.
  apply emits_bind; [|intros [|]; [now apply emits_print|apply emits_ret]].
  apply emits_bind; [apply emits_ask|intros path].
  apply emits_bind; [apply run_command_emits; do 2 right; now left|intros [ok out]].
  emits_all. exact I.
Qed.

(** X17: whatever its flags and whatever the outside answers, [run] asks
    nothing of the outside but what the script writes down: the commands
    [git status -uno], [git pull --tags], [git checkout master], a checkout
    [git -c advice.detachedHead=false checkout ...] and a build
    [mvn clean install...]; and the one file it reads is the build descriptor.
    A plain [git pull], which is what [git_pull] runs, is never run: the
    function is not called. *)
Theorem run_asks_known_commands :
  forall install_to_default is_preview do_install skip_up_to_date skip_unstaged e,
  Forall known_command
    (events (run os install_to_default is_preview do_install skip_up_to_date skip_unstaged e)) /\
  (forall cwd,
     ~ In (Subprocess "git pull" cwd)
          (events (run os install_to_default is_preview do_install skip_up_to_date skip_unstaged e))) /\
  (forall artifact,
     In (Subprocess "git pull"
           (realpath os (Path.join ROOT_PATH [REPO_RELATIVE_PATH; artifact]) e))
        (events (git_pull os artifact e))).
Proof.
  intros itd is_preview do_install su sus e.
  assert (Hknown : emits known_command (run os itd is_preview do_install su sus)).
  { unfold run.
    apply emits_bind; [destruct (negb is_preview); [apply prepare_known|apply emits_ret]|].
    intros [|]; [apply emits_ret|].
    apply emits_bind; [now apply emits_print|intros _].
    apply emits_bind; [now apply emits_print|intros _].
    apply emits_bind; [apply install_known|intros _].
    apply emits_bind; [now apply emits_print|intros _].
    apply emits_bind; [|intros _; now apply emits_print].
    destruct (negb is_preview); [|apply emits_ret].
    apply emits_bind; [now apply emits_print|intros _].
    apply emits_bind; [now apply emits_print|intros _].
    apply emits_for_each. apply back_to_master_known. }
  split; [apply Hknown|]. split.
  - intros cwd Hin. pose proof (proj1 (Forall_forall _ _) (Hknown e) _ Hin) as H.
    cbn in H. destruct H as [H|[H|[H|[H|H]]]]; discriminate H.
  - intros artifact. unfold git_pull, bind, print, effect, os_path_realpath, ask.
    cbn [value final events]. rewrite run_command_run. cbn [value final events app].
    right. now left.
Qed.

(** *** A preview installed to the default location *)

Lemma install_default_outcome : forall e,
  let built := check_output os "mvn clean install" "../mastodon-app" e in
  exists v,
    install os true e =
      Outcome (Val v) (snd built)
        ([ Print "Installing to default SciJava location";
           Subprocess "mvn clean install" "../mastodon-app" ]
         ++ match fst built with
            | inl _ => []
            | inr out => [Print ("Problem during install: " ++ out)]
            end)%list.
Proof.
  intros e built. unfold install. cbn [negb].
  unfold bind, print, effect, ret. cbn [value final events].
  rewrite run_command_run. cbn [value final events].
  change (Path.join REPO_RELATIVE_PATH ["mastodon-app"]) with "../mastodon-app".
  fold built. destruct (fst built); eexists; reflexivity.
Qed.

(** X18: a preview installed to the default location is one build in the
    umbrella repository between the banners, whatever the three other flags.
    A build that fails is reported and forgotten: [Done.] and
    [Install finished. ] are printed all the same and [run] returns as after a
    success. *)
Theorem preview_default_run : forall do_install skip_up_to_date skip_unstaged e,
  let built := check_output os "mvn clean install" "../mastodon-app" e in
  run os true true do_install skip_up_to_date skip_unstaged e =
    Outcome (Val tt) (snd built)
      ([ Print (Str.nl ++ "----------"); Print "Installing";
         Print "Installing to default SciJava location";
         Subprocess "mvn clean install" "../mastodon-app" ]
       ++ match fst built with
          | inl _ => []
          | inr out => [Print ("Problem during install: " ++ out)]
          end
       ++ [Print "Done."; Print "Install finished. "])%list.
Proof.
  intros do_install su sus e built.
  destruct (install_default_outcome e) as (v & Hinstall). fold built in Hinstall.
  unfold run. cbn [negb]. etransitivity.
  - eapply bind_outcome; [reflexivity|]. cbv iota.
    eapply bind_outcome; [reflexivity|]. eapply bind_outcome; [reflexivity|].
    eapply bind_outcome; [exact Hinstall|].
    eapply bind_outcome; [reflexivity|]. eapply bind_outcome; reflexivity.
  - cbn [app]. destruct (fst built); reflexivity.
Qed.

End Coverage.

(** ** The theorems at work in the concrete world *)

(** C1, checked on a descriptor: the version of [mastodon] is read, and an
    artifact the descriptor does not name has the empty version. *)
Lemma version_is_read_witness :
  value (get_artifact_version Testbed.world "mastodon" []) = Val "1.0.0-beta-30" /\
  value (get_artifact_version Testbed.world "mastodon-graph" []) = Val "".
Proof.
  split.
  - apply (proj1 (version_is_read Testbed.world "mastodon" [] eq_refl)
             ("<properties>" ++ Str.nl ++ "  ") "1.0.0-beta-30"
             (Str.nl ++ "  <mastodon-app.version>1.0.0-SNAPSHOT</mastodon-app.version>"
                ++ Str.nl ++ "</properties>" ++ Str.nl)).
    + reflexivity.
    + intros i Hi. do 15 (destruct i as [|i]; [reflexivity|]). cbn in Hi. lia.
    + discriminate.
    + reflexivity.
    + intros j Hj Hline. destruct j as [|j]; [lia|].
      do 19 (destruct j as [|j]; [reflexivity|]). cbn in Hline. discriminate.
  - apply (proj2 (version_is_read Testbed.world "mastodon-graph" [] eq_refl)).
    intros X (before & after & H).
    assert (Ho : occurs "<mastodon-graph.version>" Testbed.pom).
    { exists before, (X ++ "</mastodon-graph.version>" ++ after).
      cbn [read_file Testbed.world Testbed.platform] in H. rewrite H.
      now rewrite !StrFacts.append_assoc. }
    apply ReFacts.search_text_occurs in Ho. vm_compute in Ho. discriminate.
Defined.

(** C1 fails as stated: a version written on a line of its own is in the
    descriptor and is not returned; and with an empty element first, what is
    returned is the content of a later one. *)
Lemma version_over_lines_is_missed :
  (occurs ("<foo.version>" ++ (Str.nl ++ "1.0" ++ Str.nl) ++ "</foo.version>") Testbed.folded_pom /\
   value (get_artifact_version
            (Testbed.platform Testbed.folded_pom Testbed.clean_status Testbed.never) "foo" [])
     <> Val (Str.nl ++ "1.0" ++ Str.nl)) /\
  (occurs ("<foo.version>" ++ "" ++ "</foo.version>") Testbed.twice_pom /\
   value (get_artifact_version
            (Testbed.platform Testbed.twice_pom Testbed.clean_status Testbed.never) "foo" [])
     <> Val "").
Proof.
  split; split.
  - now exists "", "".
  - vm_compute. discriminate.
  - now exists "", (Str.nl ++ "<foo.version>2.0</foo.version>").
  - vm_compute. discriminate.
Qed.

(** C2 fails on the code: on the status of a moved detached head, which has
    neither indicator, the check of a run with no override does not return
    [False]: it raises [AttributeError]. *)
Theorem moved_head_crashes_the_check :
  fst (check_output Testbed.moved "git status -uno" "/work/mastodon" []) = inl Testbed.moved_status /\
  Re.search_text "Your branch is up to date with" Testbed.moved_status = false /\
  Re.search_text "nothing to commit" Testbed.moved_status = false /\
  check_if_clean Testbed.moved "mastodon" false false [] =
    Outcome (Raise AttributeError) []
      [Print "Checking repo mastodon "; Subprocess "git status -uno" "/work/mastodon"].
Proof. repeat split; vm_compute; reflexivity. Qed.

(** C3, checked on the status of a moved detached head. *)
Lemma unrecognised_status_crashes_witness :
  value (check_if_clean Testbed.moved "mastodon" false false []) = Raise AttributeError /\
  value (get_branch_name Testbed.moved "mastodon" []) = Raise AttributeError.
Proof.
  pose proof (unrecognised_status_crashes Testbed.moved "mastodon" false false []
                Testbed.moved_status eq_refl eq_refl) as [Hcheck Hname].
  split; [apply Hcheck|apply Hname; left]; reflexivity.
Defined.

(** C5, checked on artifact [foo] at version [0.9.0]. *)
Lemma tag_is_checked_out_witness :
  exists rest,
    events (git_checkout_version Testbed.world "foo" "0.9.0" false []) =
      ([ Print "Getting tags from remote.";
         Subprocess "git pull --tags" "/work/foo";
         Print "Checking out version 0.9.0 of module foo";
         Subprocess "git -c advice.detachedHead=false checkout foo-0.9.0" "/work/foo" ]
       ++ rest)%list.
Proof.
  apply (tag_is_checked_out Testbed.world "foo" "0.9.0" false []).
  now apply StrFacts.endswith_not.
Defined.



(** C7, checked in a directory where nothing is made yet: both
    directories are made; and where both are there already: none is. *)
Lemma local_install_directories_witness :
  (exists rest,
     events (install Testbed.world false []) =
       ([ Subprocess "git status -uno" "/work/mastodon";
          Mkdir "/work/mastodon-deploy-scripts/mastodon-dev-2024-01-15-all";
          Print "Installing to /work/mastodon-deploy-scripts/mastodon-dev-2024-01-15-all";
          Subprocess "mvn clean install -Dscijava.app.directory=/work/mastodon-deploy-scripts/mastodon-dev-2024-01-15-all"
                     "../mastodon-app";
          Mkdir "/work/mastodon-deploy-scripts/mastodon-dev-2024-01-15" ] ++ rest)%list
     /\ Forall copying rest) /\
  (exists rest,
     events (install Testbed.world false
               [ "/work/mastodon-deploy-scripts/mastodon-dev-2024-01-15";
                 "/work/mastodon-deploy-scripts/mastodon-dev-2024-01-15-all" ]) =
       ([ Subprocess "git status -uno" "/work/mastodon";
          Print "Installing to /work/mastodon-deploy-scripts/mastodon-dev-2024-01-15-all";
          Subprocess "mvn clean install -Dscijava.app.directory=/work/mastodon-deploy-scripts/mastodon-dev-2024-01-15-all"
                     "../mastodon-app" ] ++ rest)%list
     /\ Forall copying rest).
Proof.
  split.
  - destruct (local_install_directories Testbed.world [] []
                [Subprocess "git status -uno" "/work/mastodon"]
                "/work/mastodon-deploy-scripts" eq_refl eq_refl eq_refl)
      as (rest & H & _ & Hrest).
    exists rest. split; [exact H|exact Hrest].
  - destruct (local_install_directories Testbed.world
                [ "/work/mastodon-deploy-scripts/mastodon-dev-2024-01-15";
                  "/work/mastodon-deploy-scripts/mastodon-dev-2024-01-15-all" ]
                [ "/work/mastodon-deploy-scripts/mastodon-dev-2024-01-15";
                  "/work/mastodon-deploy-scripts/mastodon-dev-2024-01-15-all" ]
                [Subprocess "git status -uno" "/work/mastodon"]
                "/work/mastodon-deploy-scripts" eq_refl eq_refl eq_refl)
      as (rest & H & _ & Hrest).
    exists rest. split; [exact H|exact Hrest].
Defined.

(** C9, checked on a run where the second repository has a modified file. *)
Lemma failed_check_stops_the_run_witness :
  value (run Testbed.dirty false false true false false []) = Val tt /\
  filter is_checkout (events (run Testbed.dirty false false true false false [])) = [] /\
  filter is_install (events (run Testbed.dirty false false true false false [])) = [].
Proof.
  apply (failed_check_stops_the_run Testbed.dirty false true false false
           ["mastodon-collection"] "mastodon-graph"
           [ "mastodon"; "mastodon-tracking"; "mastodon-ellipsoid-fitting";
             "mastodon-selection-creator"; "mastodon-pasteur"; "mastodon-tomancak";
             "mastodon-app" ]
           [] []).
  - reflexivity.
  - apply pass_next; [reflexivity|apply pass_none].
  - reflexivity.
Defined.


(** A repository behind its remote fails the check. *)
Lemma stale_repository_fails_the_check_witness :
  value (check_if_clean Testbed.stale "mastodon" false false []) = Val false /\
  value (check_if_clean Testbed.stale "mastodon" false true []) = Val false.
Proof.
  assert (H : forall sus,
            value (check_if_clean Testbed.stale "mastodon" false sus []) = Val false).
  { intros sus.
    apply (proj2 (stale_repository_fails_the_check Testbed.stale "mastodon" sus []
                    Testbed.stale_status) eq_refl).
    - left. exists "On branch master", "master". vm_compute. intuition discriminate.
    - intros Ho. apply ReFacts.search_text_occurs in Ho. vm_compute in Ho. discriminate.
    - intros Ho. apply ReFacts.search_text_occurs in Ho. vm_compute in Ho. discriminate. }
  split; apply H.
Defined.

(** A clean branch passes, one with a modified file does not, unless the
    check of unstaged changes is skipped. *)
Lemma check_if_clean_decides_witness :
  value (check_if_clean Testbed.dirty "mastodon" false false []) = Val true /\
  value (check_if_clean Testbed.dirty "mastodon-graph" false false []) = Val false /\
  value (check_if_clean Testbed.dirty "mastodon-graph" false true []) = Val true.
Proof.
  split; [|split].
  - apply (proj1 (check_if_clean_decides Testbed.dirty "mastodon" false false []
                    (Testbed.clean_status "master") eq_refl)).
    exists "On branch master", "master". vm_compute. intuition discriminate.
  - apply (proj1 (check_if_clean_decides Testbed.dirty "mastodon-graph" false false []
                    (Testbed.dirty_status "master") eq_refl)).
    exists "On branch master", "master". vm_compute. intuition discriminate.
  - apply (proj1 (check_if_clean_decides Testbed.dirty "mastodon-graph" false true []
                    (Testbed.dirty_status "master") eq_refl)).
    exists "On branch master", "master". vm_compute. intuition discriminate.
Defined.


(** X7, checked on a clean repository. *)
Lemma overrides_only_relax_witness :
  value (check_if_clean Testbed.world "mastodon" true false []) = Val true /\
  value (check_if_clean Testbed.world "mastodon" false true []) = Val true.
Proof.
  split; apply (overrides_only_relax Testbed.world "mastodon" _ _ []); reflexivity.
Defined.


(** X10, checked on an artifact the descriptor does not name. *)
Lemma missing_version_switches_to_bare_ref_witness :
  exists rest,
    events (checkout_or_return Testbed.world false "mastodon-graph" []) =
      ([ Open "./pom.xml";
         Print "Getting tags from remote.";
         Subprocess "git pull --tags" "/work/mastodon-graph";
         Print "Checking out version  of module mastodon-graph";
         Subprocess "git -c advice.detachedHead=false checkout mastodon-graph-"
                    "/work/mastodon-graph" ] ++ rest)%list.
Proof.
  apply (missing_version_switches_to_bare_ref Testbed.world false "mastodon-graph" [] eq_refl).
  intros X (before & after & H).
  assert (Ho : occurs "<mastodon-graph.version>" Testbed.pom).
  { exists before, (X ++ "</mastodon-graph.version>" ++ after).
    cbn [read_file Testbed.world Testbed.platform] in H. rewrite H.
    now rewrite !StrFacts.append_assoc. }
  apply ReFacts.search_text_occurs in Ho. vm_compute in Ho. discriminate.
Defined.

(** X11, checked on the status of a moved detached head. *)
Lemma unrecognised_branch_stops_the_install_witness :
  install Testbed.moved false [] =
    Outcome (Raise AttributeError) [] [Subprocess "git status -uno" "/work/mastodon"] /\
  run Testbed.moved false true false false false [] =
    Outcome (Raise AttributeError) []
      [ Print (Str.nl ++ "----------"); Print "Installing";
        Subprocess "git status -uno" "/work/mastodon" ].
Proof.
  exact (unrecognised_branch_stops_the_install Testbed.moved false false false []
           Testbed.moved_status (or_introl eq_refl) eq_refl eq_refl).
Defined.


(** X14, checked on a run where the tag of the third artifact is missing. *)
Lemma failed_switch_stops_the_run_witness :
  value (run Testbed.tag_missing false false false false false []) = Val tt /\
  Forall before_install (events (run Testbed.tag_missing false false false false false [])).
Proof.
  apply (failed_switch_stops_the_run Testbed.tag_missing false false false false
           ["mastodon-collection"; "mastodon-graph"] "mastodon"
           [ "mastodon-tracking"; "mastodon-ellipsoid-fitting";
             "mastodon-selection-creator"; "mastodon-pasteur"; "mastodon-tomancak";
             "mastodon-app" ]
           [] [] [] "1.0.0-beta-30").
  - repeat (apply pass_next; [reflexivity|]). apply pass_none.
  - reflexivity.
  - apply (switch_next _ _ _ ""); [reflexivity|reflexivity|].
    apply (switch_next _ _ _ ""); [reflexivity|reflexivity|].
    apply switch_none.
  - reflexivity.
  - reflexivity.
Defined.

(** X15, checked on a run whose install fails. *)
Lemma failed_install_still_restores_witness :
  value (install Testbed.build_fails true []) = Val (Some false) /\
  value (run Testbed.build_fails true false false false false []) = Val tt /\
  List.length (filter is_checkout
                 (events (for_each ARTIFACTS (back_to_master Testbed.build_fails) []))) = 9.
Proof.
  split; [reflexivity|].
  assert (Hchecks : checks_pass Testbed.build_fails false false ARTIFACTS [] []).
  { repeat (apply pass_next; [reflexivity|]). apply pass_none. }
  assert (Hswitch : switches_pass Testbed.build_fails false ARTIFACTS [] []).
  { apply (switch_next _ _ _ ""); [reflexivity|reflexivity|].
    apply (switch_next _ _ _ ""); [reflexivity|reflexivity|].
    apply (switch_next _ _ _ "1.0.0-beta-30"); [reflexivity|reflexivity|].
    apply (switch_next _ _ _ ""); [reflexivity|reflexivity|].
    apply (switch_next _ _ _ ""); [reflexivity|reflexivity|].
    apply (switch_next _ _ _ ""); [reflexivity|reflexivity|].
    apply (switch_next _ _ _ ""); [reflexivity|reflexivity|].
    apply (switch_next _ _ _ ""); [reflexivity|reflexivity|].
    apply (switch_next _ _ _ "1.0.0-SNAPSHOT"); [reflexivity|reflexivity|].
    apply switch_none. }
  destruct (failed_install_still_restores Testbed.build_fails true false false false
              [] [] [] (Some false) Hchecks Hswitch eq_refl) as (Hv & _ & _).
  split; [exact Hv|reflexivity].
Defined.


(** ** The functions run on small inputs *)

Example slices : Str.drop 2 "abcde" = "cde" /\ Str.take 2 "abcde" = "ab" /\
  Str.slice_to_minus 4 "x-all" = "x" /\ Str.slice_to_minus 4 "all" = "".
Proof. repeat split; reflexivity. Qed.

Example endswith_examples :
  Str.endswith "1.2.3-SNAPSHOT" "SNAPSHOT" = true /\
  Str.endswith "0.9.0" "SNAPSHOT" = false /\
  Str.endswith "abc" "" = true.
Proof. repeat split; reflexivity. Qed.

Example lower_examples :
  Str.lower "Mastodon-DEV" = "mastodon-dev" /\ Str.lower "v1.0_[x]" = "v1.0_[x]".
Proof. split; reflexivity. Qed.

Example isoformat_examples :
  isoformat (Date 2024 1 15) = "2024-01-15" /\ isoformat (Date 987 12 3) = "0987-12-03".
Proof. split; reflexivity. Qed.

Example split_example : Str.split "/" "/a//b/" = [""; "a"; ""; "b"; ""].
Proof. reflexivity. Qed.

Example branch_is_found :
  Re.search on_branch_regex
    ("x On branch y" ++ Str.nl ++ "On branch master" ++ Str.nl ++ "foo") = Some "master" /\
  Re.search on_branch_regex ("On branch " ++ Str.nl ++ "On branch") = None /\
  Re.search head_detached_regex ("HEAD detached at mastodon-1.0.0" ++ Str.nl)
    = Some "mastodon-1.0.0".
Proof. repeat split; reflexivity. Qed.

Example group_is_greedy :
  Re.search (version_regex "a")
    ("<a.version>1</a.version><a.version>2</a.version>" ++ Str.nl ++ "<a.version>3</a.version>")
    = Some "1</a.version><a.version>2".
Proof. reflexivity. Qed.

Example group_is_not_empty :
  Re.search (version_regex "a")
    ("<a.version></a.version><a.version>" ++ Str.nl ++ "</a.version><a.version>3</a.version>")
    = Some "3".
Proof. reflexivity. Qed.

Example artifacts_are_literal : forallb Re.literal ARTIFACTS = true.
Proof. reflexivity. Qed.

Example normpath_examples :
  Path.normpath "/work/x/./../y//z/" = "/work/y/z" /\ Path.normpath "//a/.." = "//" /\
  Path.normpath "a/../.." = ".." /\ Path.normpath "///a" = "/a" /\
  Path.normpath "./" = "." /\ Path.normpath "/.." = "/".
Proof. repeat split; reflexivity. Qed.

Example join_examples :
  Path.join "." [".."; "mastodon"] = "./../mastodon" /\
  Path.join "." ["/abs/x"; "jars"] = "/abs/x/jars" /\
  PATH_TO_POM_FILE = "./pom.xml".
Proof. repeat split; reflexivity. Qed.

Example basename_examples :
  Path.basename "/a/b/c.jar" = "c.jar" /\ Path.basename "c" = "c" /\ Path.basename "a/" = "".
Proof. repeat split; reflexivity. Qed.

(** A full run in the concrete world: nine checks and the installer's own
    question, eight checkouts of a version (one artifact is pinned to a
    snapshot) and nine of master, and one install. *)
Example full_run :
  value (run Testbed.on_master false false false false false []) = Val tt /\
  List.length (filter is_status (events (run Testbed.on_master false false false false false []))) = 10 /\
  List.length (filter is_checkout (events (run Testbed.on_master false false false false false []))) = 17 /\
  List.length (filter is_install (events (run Testbed.on_master false false false false false []))) = 1.
Proof. repeat split; vm_compute; reflexivity. Qed.
